(** * WanderMart: the mock persistence and query layer

    A shallow embedding of the service facade of the WanderMart front end
    (the module of async functions over [localStorage]) and of the entity
    types it manipulates, followed by the properties of the specification
    that concern it.

    Modelling conventions.
    - A JavaScript string is a [string]; [===] on strings is [String.eqb].
    - An optional property ([f?: T]) is an [option]; [undefined] is [None].
    - JavaScript truthiness of an optional string is [truthy]: [undefined]
      and the empty string are falsy, every other string is truthy.
    - [localStorage] holds one JSON blob per key.  The facade only ever
      stores and reloads whole typed slices, so the store is a record with
      one optional slice per key, and [JSON.parse (JSON.stringify v)] is the
      identity on the typed values.
    - [await delay(DELAY_MS)] only passes time and is left out.
    - [Date.now()] is an argument of the operations that read the clock.
    - The non-null assertion [e!] is unchecked at run time.  Where it feeds
      a field whose type is [string], the operation is only modelled for
      arguments that carry the field; elsewhere it returns [None]. *)

From Stdlib Require Import List Bool Arith ZArith Lia.
From Stdlib Require QArith.
From Stdlib Require Import Ascii String DecimalString.
Import ListNotations.

Open Scope list_scope.
Open Scope string_scope.

(** ** JavaScript primitives used by the facade *)

(** [number]: IEEE doubles in the source.  The facade stores and copies
    prices, stock, totals, ratings and likes but never computes on them. *)
Definition number : Type := QArith_base.Q.

(** Truthiness of a string value. *)
Definition truthy_string (s : string) : bool :=
  negb (String.eqb s "").

(** Truthiness of an optional string ([undefined] is falsy). *)
Definition truthy (o : option string) : bool :=
  match o with
  | Some s => truthy_string s
  | None => false
  end.

(** [a || b] where [a] is an optional string and [b] a string. *)
Definition or_else (a : option string) (b : string) : string :=
  match a with
  | Some s => if truthy_string s then s else b
  | None => b
  end.

(** [a || b] where both sides are optional strings. *)
Definition or_else_opt (a b : option string) : option string :=
  if truthy a then a else b.

(** [a || b] where [a] is an optional array: every array is truthy. *)
Definition or_else_list {A} (a : option (list A)) (b : list A) : list A :=
  match a with
  | Some l => l
  | None => b
  end.

(** A value interpolated in a template literal. *)
Definition interpolate (o : option string) : string :=
  match o with
  | Some s => s
  | None => "undefined"
  end.

(** The decimal rendering of an integer, as in [`${Date.now()}`]. *)
Definition show_int (z : Z) : string :=
  NilZero.string_of_int (Z.to_int z).

(** [===] between an optional string and a string. *)
Definition opt_eqb (o : option string) (s : string) : bool :=
  match o with
  | Some x => String.eqb x s
  | None => false
  end.

(** [q] is read at the start of [s]. *)
Fixpoint starts_with (q s : string) : bool :=
  match q, s with
  | EmptyString, _ => true
  | String _ _, EmptyString => false
  | String c q', String d s' => Ascii.eqb c d && starts_with q' s'
  end.

(** [s.includes(q)]: [q] is read at some position of [s]. *)
Fixpoint includes (s q : string) : bool :=
  starts_with q s ||
  match s with
  | EmptyString => false
  | String _ s' => includes s' q
  end.

(** [arr.includes(x)] on an array of strings. *)
Definition array_includes (arr : list string) (x : string) : bool :=
  existsb (String.eqb x) arr.

(** [s.split(c)] for a one-character separator. *)
Fixpoint split (c : ascii) (s : string) : list string :=
  match s with
  | EmptyString => [EmptyString]
  | String a s' =>
      if Ascii.eqb a c then EmptyString :: split c s'
      else match split c s' with
           | [] => [String a EmptyString]
           | seg :: segs => String a seg :: segs
           end
  end.

(** [arr.findIndex(p)]; [None] stands for [-1]. *)
Fixpoint findIndex {A} (p : A -> bool) (l : list A) : option nat :=
  match l with
  | [] => None
  | x :: l' => if p x then Some 0 else option_map S (findIndex p l')
  end.

(** [arr[i] = v] for an index inside the array. *)
Fixpoint set_index {A} (l : list A) (i : nat) (v : A) : list A :=
  match l, i with
  | [], _ => []
  | _ :: l', 0 => v :: l'
  | x :: l', S i' => x :: set_index l' i' v
  end.

(** ** Entity types *)

Inductive UserRole := GUEST | TRAVELER | MERCHANT | ADMIN.

Definition UserRole_eqb (a b : UserRole) : bool :=
  match a, b with
  | GUEST, GUEST | TRAVELER, TRAVELER | MERCHANT, MERCHANT | ADMIN, ADMIN => true
  | _, _ => false
  end.

Inductive UserStatus := user_active | user_pending | user_rejected.

Inductive PostStatus := post_active | post_reported | post_hidden.

Definition PostStatus_eqb (a b : PostStatus) : bool :=
  match a, b with
  | post_active, post_active | post_reported, post_reported
  | post_hidden, post_hidden => true
  | _, _ => false
  end.

Inductive OrderStatus :=
  order_pending | order_shipped | order_delivered | order_cancelled.

Module User.
Record t := mk {
  id : string;
  username : string;
  email : string;
  role : UserRole;
  token : option string;
  status : UserStatus;
  qualificationUrl : option string
}.
(** [Partial<User>] *)
Record partial := mk_partial {
  p_id : option string;
  p_username : option string;
  p_email : option string;
  p_role : option UserRole;
  p_token : option string;
  p_status : option UserStatus;
  p_qualificationUrl : option string
}.
End User.

Module Attraction.
Record t := mk {
  id : string;
  title : string;
  description : string;
  address : string;
  region : string;
  province : option string;
  city : option string;
  county : option string;
  tags : list string;
  imageUrl : string;
  gallery : option (list string);
  openHours : option string;
  drivingTips : option string
}.
(** [Partial<Attraction>]; [None] is a key that is not there. *)
Record partial := mk_partial {
  p_id : option string;
  p_title : option string;
  p_description : option string;
  p_address : option string;
  p_region : option string;
  p_province : option string;
  p_city : option string;
  p_county : option string;
  p_tags : option (list string);
  p_imageUrl : option string;
  p_gallery : option (list string);
  p_openHours : option string;
  p_drivingTips : option string
}.
End Attraction.

Module Comment.
Record t := mk {
  id : string;
  userId : string;
  username : string;
  content : string;
  createdAt : string
}.
End Comment.

Module Post.
Record t := mk {
  id : string;
  attractionId : string;
  userId : string;
  username : string;
  content : string;
  rating : option number;
  imageUrl : option string;
  likes : number;
  comments : list Comment.t;
  createdAt : string;
  status : PostStatus
}.
End Post.

Module Product.
Record t := mk {
  id : string;
  merchantId : string;
  merchantName : string;
  attractionId : option string;
  attractionName : option string;
  name : string;
  description : string;
  price : number;
  stock : number;
  imageUrl : string
}.
(** [Partial<Product>] *)
Record partial := mk_partial {
  p_id : option string;
  p_merchantId : option string;
  p_merchantName : option string;
  p_attractionId : option string;
  p_attractionName : option string;
  p_name : option string;
  p_description : option string;
  p_price : option number;
  p_stock : option number;
  p_imageUrl : option string
}.
End Product.

(** [CartItem extends Product] with a quantity. *)
Module CartItem.
Record t := mk {
  product : Product.t;
  quantity : number
}.
End CartItem.

Module Order.
Record t := mk {
  id : string;
  userId : string;
  items : list CartItem.t;
  total : number;
  status : OrderStatus;
  trackingNumber : option string;
  createdAt : string
}.
End Order.

(** The envelope [ApiResponse<T>]. *)
Record ApiResponse (T : Type) := mk_response {
  success : bool;
  data : option T;
  message : option string
}.
Arguments mk_response {T}.
Arguments success {T}.
Arguments data {T}.
Arguments message {T}.

Definition ok {T} (v : T) : ApiResponse T :=
  {| success := true; data := Some v; message := None |}.

Definition failure {T} (msg : string) : ApiResponse T :=
  {| success := false; data := None; message := Some msg |}.

(** [{ ...user, token }] *)
Definition with_token (u : User.t) (tok : option string) : User.t :=
  User.mk (User.id u) (User.username u) (User.email u) (User.role u)
          tok (User.status u) (User.qualificationUrl u).

(** [{ ...u, status }] *)
Definition with_user_status (u : User.t) (s : UserStatus) : User.t :=
  User.mk (User.id u) (User.username u) (User.email u) (User.role u)
          (User.token u) s (User.qualificationUrl u).

(** [{ ...p, status }] *)
Definition with_post_status (p : Post.t) (s : PostStatus) : Post.t :=
  Post.mk (Post.id p) (Post.attractionId p) (Post.userId p) (Post.username p)
          (Post.content p) (Post.rating p) (Post.imageUrl p) (Post.likes p)
          (Post.comments p) (Post.createdAt p) s.

(** [{ ...o, status, trackingNumber }] *)
Definition with_order_status (o : Order.t) (s : OrderStatus)
    (tracking : option string) : Order.t :=
  Order.mk (Order.id o) (Order.userId o) (Order.items o) (Order.total o)
           s tracking (Order.createdAt o).

(** A key of a spread update wins when it is there. *)
Definition over {A} (upd : option A) (cur : A) : A :=
  match upd with
  | Some v => v
  | None => cur
  end.

(** The same for a property that is itself optional. *)
Definition over_opt {A} (upd : option A) (cur : option A) : option A :=
  match upd with
  | Some v => Some v
  | None => cur
  end.

(** [{ ...a, ...updates }] *)
Definition merge_attraction (a : Attraction.t) (u : Attraction.partial)
    : Attraction.t :=
  Attraction.mk
    (over (Attraction.p_id u) (Attraction.id a))
    (over (Attraction.p_title u) (Attraction.title a))
    (over (Attraction.p_description u) (Attraction.description a))
    (over (Attraction.p_address u) (Attraction.address a))
    (over (Attraction.p_region u) (Attraction.region a))
    (over_opt (Attraction.p_province u) (Attraction.province a))
    (over_opt (Attraction.p_city u) (Attraction.city a))
    (over_opt (Attraction.p_county u) (Attraction.county a))
    (over (Attraction.p_tags u) (Attraction.tags a))
    (over (Attraction.p_imageUrl u) (Attraction.imageUrl a))
    (over_opt (Attraction.p_gallery u) (Attraction.gallery a))
    (over_opt (Attraction.p_openHours u) (Attraction.openHours a))
    (over_opt (Attraction.p_drivingTips u) (Attraction.drivingTips a)).

(** [===] between two optional strings. *)
Definition strict_eq (a b : option string) : bool :=
  match a, b with
  | Some x, Some y => String.eqb x y
  | None, None => true
  | _, _ => false
  end.

(** ** The store *)

(** The content of [localStorage]: one slice per key, absent until the
    first write. *)
Record Storage := mk_storage {
  users_item : option (list User.t);
  attractions_item : option (list Attraction.t);
  posts_item : option (list Post.t);
  products_item : option (list Product.t);
  orders_item : option (list Order.t)
}.

Definition empty_storage : Storage := mk_storage None None None None None.

(** A storage key together with the type of the slice kept under it. *)
Record Key (T : Type) := mk_key {
  getItem : Storage -> option T;
  setItem : T -> Storage -> Storage
}.
Arguments getItem {T}.
Arguments setItem {T}.

Definition mock_users : Key (list User.t) :=
  mk_key _ users_item
    (fun v st => mk_storage (Some v) (attractions_item st) (posts_item st)
                            (products_item st) (orders_item st)).

Definition mock_attractions : Key (list Attraction.t) :=
  mk_key _ attractions_item
    (fun v st => mk_storage (users_item st) (Some v) (posts_item st)
                            (products_item st) (orders_item st)).

Definition mock_posts : Key (list Post.t) :=
  mk_key _ posts_item
    (fun v st => mk_storage (users_item st) (attractions_item st) (Some v)
                            (products_item st) (orders_item st)).

Definition mock_products : Key (list Product.t) :=
  mk_key _ products_item
    (fun v st => mk_storage (users_item st) (attractions_item st)
                            (posts_item st) (Some v) (orders_item st)).

Definition mock_orders : Key (list Order.t) :=
  mk_key _ orders_item
    (fun v st => mk_storage (users_item st) (attractions_item st)
                            (posts_item st) (products_item st) (Some v)).

(** [getStorage]: the stored slice, or the default when the key is unset. *)
Definition getStorage {T} (key : Key T) (defaultVal : T) (st : Storage) : T :=
  match getItem key st with
  | Some stored => stored
  | None => defaultVal
  end.

(** [setStorage]: overwrite the key with the whole slice. *)
Definition setStorage {T} (key : Key T) (val : T) (st : Storage) : Storage :=
  setItem key val st.

(** ** Operations as store transformers

    An operation maps the store to its result and the store it leaves, or to
    [None] when a non-null assertion on a [string] field does not hold. *)

Definition M (A : Type) : Type := Storage -> option (A * Storage).

Definition ret {A} (a : A) : M A := fun st => Some (a, st).

Definition bind {A B} (m : M A) (f : A -> M B) : M B :=
  fun st =>
    match m st with
    | Some (a, st') => f a st'
    | None => None
    end.

Definition read {T} (key : Key T) (defaultVal : T) : M T :=
  fun st => Some (getStorage key defaultVal st, st).

Definition write {T} (key : Key T) (val : T) : M unit :=
  fun st => Some (tt, setStorage key val st).

Definition non_null {A} (o : option A) : M A :=
  fun st =>
    match o with
    | Some a => Some (a, st)
    | None => None
    end.

Notation "x <- m ;; k" := (bind m (fun x => k))
  (at level 61, m at next level, right associativity).
Notation "m ;;; k" := (bind m (fun _ => k))
  (at level 61, right associativity).

(** ** Fixtures *)

Definition MOCK_ATTRACTIONS : list Attraction.t :=
  [ Attraction.mk "1" "Chengdu Research Base of Giant Panda Breeding"
      "A world-renowned breeding and research center for giant pandas."
      "1375 Panda Rd, Chenghua District, Chengdu"
      "四川省 成都市" (Some "四川省") (Some "成都市") (Some "成华区")
      ["Nature"; "Animals"; "Family"]
      "https://picsum.photos/800/600?random=1"
      (Some ["https://picsum.photos/800/600?random=101";
             "https://picsum.photos/800/600?random=102";
             "https://picsum.photos/800/600?random=103"])
      (Some "07:30 - 18:00")
      (Some "Accessible by Metro Line 3. Parking available at South Gate.");
    Attraction.mk "2" "The Palace Museum (Forbidden City)"
      "Imperial palace of the Ming and Qing dynasties. A masterpiece of Chinese architecture."
      "4 Jingshan Front St, Dongcheng District, Beijing"
      "北京市 东城区" (Some "北京市") (Some "北京市") (Some "东城区")
      ["History"; "Culture"; "Architecture"]
      "https://picsum.photos/800/600?random=2"
      (Some ["https://picsum.photos/800/600?random=201";
             "https://picsum.photos/800/600?random=202"])
      (Some "08:30 - 17:00")
      (Some "No public parking. Use public transport (Metro Line 1).");
    Attraction.mk "3" "West Lake Cultural Landscape"
      "Freshwater lake divided by causeways, famous for its scenic beauty and temples."
      "Xihu District, Hangzhou, Zhejiang"
      "浙江省 杭州市" (Some "浙江省") (Some "杭州市") (Some "西湖区")
      ["Nature"; "History"; "Water"]
      "https://picsum.photos/800/600?random=3"
      (Some ["https://picsum.photos/800/600?random=301"])
      (Some "24 Hours")
      (Some "Traffic restrictions on weekends based on license plates.");
    Attraction.mk "4" "Jiuzhaigou Valley"
      "Nature reserve and national park known for its many multi-level waterfalls and colorful lakes."
      "Jiuzhaigou County, Ngawa Tibetan and Qiang Autonomous Prefecture, Sichuan"
      "四川省 阿坝州" (Some "四川省") (Some "阿坝藏族羌族自治州") (Some "九寨沟县")
      ["Nature"; "Hiking"; "Photography"]
      "https://picsum.photos/800/600?random=4"
      (Some ["https://picsum.photos/800/600?random=401";
             "https://picsum.photos/800/600?random=402";
             "https://picsum.photos/800/600?random=403";
             "https://picsum.photos/800/600?random=404"])
      (Some "08:00 - 17:00")
      (Some "Mountain roads. Careful driving required in winter.");
    Attraction.mk "5" "Mount Qingcheng"
      "One of the birthplaces of Taoism, featuring lush forests and ancient temples."
      "Dujiangyan, Chengdu, Sichuan"
      "四川省 成都市" (Some "四川省") (Some "成都市") (Some "都江堰市")
      ["Culture"; "Hiking"; "Mountain"]
      "https://picsum.photos/800/600?random=5"
      None
      (Some "08:00 - 17:30")
      (Some "Take Chengguan Expressway. Parking lot is 2km from gate (shuttle available).")
  ].

Definition MOCK_PRODUCTS : list Product.t :=
  [ Product.mk "p1" "m1" "Panda Souvenirs" (Some "1")
      (Some "Chengdu Research Base of Giant Panda Breeding")
      "Plush Panda Toy" "Soft and cuddly panda plush."
      (QArith_base.Qmake 25 1) (QArith_base.Qmake 100 1)
      "https://picsum.photos/400/400?random=10";
    Product.mk "p2" "m1" "Panda Souvenirs" (Some "5")
      (Some "Mount Qingcheng")
      "Bamboo Fan" "Traditional hand fan made of bamboo."
      (QArith_base.Qmake 25 2) (QArith_base.Qmake 50 1)
      "https://picsum.photos/400/400?random=11"
  ].

Definition INITIAL_USERS : list User.t :=
  [ User.mk "admin1" "Admin User" "admin@test.com" ADMIN None user_active None;
    User.mk "m1" "Merchant User" "merchant@test.com" MERCHANT None user_active
      (Some "https://picsum.photos/200/300");
    User.mk "u1" "Traveler User" "user@test.com" TRAVELER None user_active None
  ].

(** [AttractionFilters] *)
Record AttractionFilters := mk_filters {
  f_province : option string;
  f_city : option string;
  f_county : option string;
  f_query : option string;
  f_tag : option string
}.

(** [arr.map(cb)] for a callback that also assigns a captured variable. *)
Fixpoint map_capturing {A B S} (cb : A -> S -> B * S) (l : list A) (s : S)
    : list B * S :=
  match l with
  | [] => ([], s)
  | x :: l' =>
      let (y, s1) := cb x s in
      let (ys, s2) := map_capturing cb l' s1 in
      (y :: ys, s2)
  end.

Section Facade.

(** [String.prototype.toLowerCase]. *)
Variable toLowerCase : string -> string.

(** *** Auth services *)

Definition login (email password : string) : M (ApiResponse User.t) :=
  users <- read mock_users INITIAL_USERS ;;
  let user :=
    find (fun u => String.eqb (toLowerCase (User.email u)) (toLowerCase email))
         users in
  match user with
  | Some user =>
      ret (ok (with_token user (Some ("mock-jwt-" ++ User.id user))))
  | None =>
      ret (failure
        "Invalid credentials. Try user@test.com, merchant@test.com, or admin@test.com")
  end.

Definition register (userData : User.partial) (password : string) (now : Z)
    : M (ApiResponse User.t) :=
  users <- read mock_users INITIAL_USERS ;;
  match find (fun u => strict_eq (Some (User.email u)) (User.p_email userData))
             users with
  | Some _ => ret (failure "Email already exists")
  | None =>
      let status :=
        match User.p_role userData with
        | Some MERCHANT => user_pending
        | _ => user_active
        end in
      email <- non_null (User.p_email userData) ;;
      let newUser :=
        User.mk ("u-" ++ show_int now)
                (or_else (User.p_username userData)
                         (hd EmptyString (split "@" email)))
                email
                (match User.p_role userData with
                 | Some r => r
                 | None => TRAVELER
                 end)
                (Some "mock-jwt-new")
                status
                (User.p_qualificationUrl userData) in
      write mock_users (users ++ [newUser])%list ;;;
      ret (ok newUser)
  end.

Definition getPendingMerchants : M (ApiResponse (list User.t)) :=
  users <- read mock_users INITIAL_USERS ;;
  let pending :=
    filter (fun u => UserRole_eqb (User.role u) MERCHANT &&
                     match User.status u with
                     | user_pending => true
                     | _ => false
                     end) users in
  ret (ok pending).

(** The source restricts [status] to active or rejected; any status is
    taken here. *)
Definition updateUserStatus (userId : string) (status : UserStatus)
    : M (ApiResponse bool) :=
  users <- read mock_users INITIAL_USERS ;;
  let updatedUsers :=
    map (fun u => if String.eqb (User.id u) userId
                  then with_user_status u status else u) users in
  write mock_users updatedUsers ;;;
  ret (ok true).

(** *** Attraction services *)

Definition getAttractions (filters : AttractionFilters)
    : M (ApiResponse (list Attraction.t)) :=
  data <- read mock_attractions MOCK_ATTRACTIONS ;;
  let data :=
    if truthy (f_province filters)
    then filter (fun a => strict_eq (Attraction.province a) (f_province filters)) data
    else data in
  let data :=
    if truthy (f_city filters)
    then filter (fun a => strict_eq (Attraction.city a) (f_city filters)) data
    else data in
  let data :=
    if truthy (f_county filters)
    then filter (fun a => strict_eq (Attraction.county a) (f_county filters)) data
    else data in
  let data :=
    match f_tag filters with
    | Some tag =>
        if truthy_string tag
        then filter (fun a => array_includes (Attraction.tags a) tag) data
        else data
    | None => data
    end in
  let data :=
    match f_query filters with
    | Some query =>
        if truthy_string query
        then
          let q := toLowerCase query in
          filter (fun a => includes (toLowerCase (Attraction.title a)) q ||
                           includes (toLowerCase (Attraction.description a)) q)
                 data
        else data
    | None => data
    end in
  ret (ok data).

Definition getAttractionById (id : string) : M (ApiResponse Attraction.t) :=
  data <- read mock_attractions MOCK_ATTRACTIONS ;;
  match find (fun a => String.eqb (Attraction.id a) id) data with
  | Some attraction => ret (ok attraction)
  | None => ret (failure "Not found")
  end.

Definition createAttraction (attractionData : Attraction.partial) (now : Z)
    : M (ApiResponse Attraction.t) :=
  attractions <- read mock_attractions MOCK_ATTRACTIONS ;;
  title <- non_null (Attraction.p_title attractionData) ;;
  description <- non_null (Attraction.p_description attractionData) ;;
  address <- non_null (Attraction.p_address attractionData) ;;
  let newAttraction :=
    Attraction.mk
      ("attr-" ++ show_int now)
      title description address
      (interpolate (Attraction.p_province attractionData) ++ " " ++
       interpolate (Attraction.p_city attractionData))
      (Attraction.p_province attractionData)
      (Attraction.p_city attractionData)
      (Attraction.p_county attractionData)
      (or_else_list (Attraction.p_tags attractionData) [])
      (or_else (Attraction.p_imageUrl attractionData)
               "https://picsum.photos/800/600?random=99")
      (Some (or_else_list (Attraction.p_gallery attractionData) []))
      (Attraction.p_openHours attractionData)
      (Attraction.p_drivingTips attractionData) in
  write mock_attractions (newAttraction :: attractions) ;;;
  ret (ok newAttraction).

Definition updateAttraction (id : string) (updates : Attraction.partial)
    : M (ApiResponse Attraction.t) :=
  attractions <- read mock_attractions MOCK_ATTRACTIONS ;;
  match findIndex (fun a => String.eqb (Attraction.id a) id) attractions with
  | None => ret (failure "Attraction not found")
  | Some index =>
      current <- non_null (nth_error attractions index) ;;
      let updatedAttraction := merge_attraction current updates in
      let attractions := set_index attractions index updatedAttraction in
      write mock_attractions attractions ;;;
      ret (ok updatedAttraction)
  end.

Definition deleteAttraction (id : string) : M (ApiResponse bool) :=
  attractions <- read mock_attractions MOCK_ATTRACTIONS ;;
  let attractions :=
    filter (fun a => negb (String.eqb (Attraction.id a) id)) attractions in
  write mock_attractions attractions ;;;
  ret (ok true).

(** *** Post services *)

Definition getPosts (attractionId : option string)
    : M (ApiResponse (list Post.t)) :=
  allPosts <- read mock_posts [] ;;
  let visiblePosts :=
    filter (fun p => PostStatus_eqb (Post.status p) post_active) allPosts in
  let filtered :=
    match attractionId with
    | Some attractionId =>
        if truthy_string attractionId
        then filter (fun p => String.eqb (Post.attractionId p) attractionId)
                    visiblePosts
        else visiblePosts
    | None => visiblePosts
    end in
  ret (ok filtered).

Definition reportPost (postId : string) : M (ApiResponse bool) :=
  posts <- read mock_posts [] ;;
  let updated :=
    map (fun p => if String.eqb (Post.id p) postId
                  then with_post_status p post_reported else p) posts in
  write mock_posts updated ;;;
  ret (ok true).

(** *** Merchant and product services *)

Definition getProducts (merchantId attractionId : option string)
    : M (ApiResponse (list Product.t)) :=
  allProducts <- read mock_products MOCK_PRODUCTS ;;
  let allProducts :=
    if truthy merchantId
    then filter (fun p => strict_eq (Some (Product.merchantId p)) merchantId)
                allProducts
    else allProducts in
  let allProducts :=
    if truthy attractionId
    then filter (fun p => strict_eq (Product.attractionId p) attractionId)
                allProducts
    else allProducts in
  ret (ok allProducts).

Definition getProductById (id : string) : M (ApiResponse Product.t) :=
  allProducts <- read mock_products MOCK_PRODUCTS ;;
  match find (fun p => String.eqb (Product.id p) id) allProducts with
  | Some product => ret (ok product)
  | None => ret (failure "Not found")
  end.

(** The clock is read twice: for the id and for the default image. *)
Definition createProduct (product : Product.partial) (now now' : Z)
    : M (ApiResponse Product.t) :=
  attractionName <-
    (if truthy (Product.p_attractionId product)
     then
       attractions <- read mock_attractions MOCK_ATTRACTIONS ;;
       match find (fun a => strict_eq (Some (Attraction.id a))
                                      (Product.p_attractionId product))
                  attractions with
       | Some attr => ret (Some (Attraction.title attr))
       | None => ret None
       end
     else ret None) ;;
  merchantId <- non_null (Product.p_merchantId product) ;;
  name <- non_null (Product.p_name product) ;;
  description <- non_null (Product.p_description product) ;;
  price <- non_null (Product.p_price product) ;;
  stock <- non_null (Product.p_stock product) ;;
  let newProduct :=
    Product.mk
      ("prod-" ++ show_int now)
      merchantId
      (or_else (Product.p_merchantName product) "My Store")
      (Product.p_attractionId product)
      attractionName
      name description price stock
      (or_else (Product.p_imageUrl product)
               ("https://picsum.photos/400/400?random=" ++ show_int now')) in
  products <- read mock_products MOCK_PRODUCTS ;;
  write mock_products (products ++ [newProduct])%list ;;;
  ret (ok newProduct).

(** *** Order services *)

Definition updateOrderStatus (orderId : string) (status : OrderStatus)
    (trackingNumber : option string) : M (ApiResponse Order.t) :=
  orders <- read mock_orders [] ;;
  let (updatedOrders, updatedOrder) :=
    map_capturing
      (fun o (updatedOrder : option Order.t) =>
         if String.eqb (Order.id o) orderId
         then
           let updated :=
             with_order_status o status
               (or_else_opt trackingNumber (Order.trackingNumber o)) in
           (updated, Some updated)
         else (o, updatedOrder))
      orders None in
  match updatedOrder with
  | None => ret (failure "Order not found")
  | Some updatedOrder =>
      write mock_orders updatedOrders ;;;
      ret (ok updatedOrder)
  end.

(** *** Admin services *)

Definition getReportedContent : M (ApiResponse (list Post.t)) :=
  posts <- read mock_posts [] ;;
  ret (ok (filter (fun p => PostStatus_eqb (Post.status p) post_reported) posts)).

Inductive ModerationAction := approve | delete.

Definition moderateContent (id : string) (action : ModerationAction)
    : M (ApiResponse bool) :=
  posts <- read mock_posts [] ;;
  let posts :=
    match action with
    | delete => filter (fun p => negb (String.eqb (Post.id p) id)) posts
    | approve =>
        map (fun p => if String.eqb (Post.id p) id
                      then with_post_status p post_active else p) posts
    end in
  write mock_posts posts ;;;
  ret (ok true).

End Facade.

(** *** The remaining services *)

(** [Partial<Post>]; [None] is a key that is not there. *)
Module PartialPost.
Record t := mk {
  id : option string;
  attractionId : option string;
  userId : option string;
  username : option string;
  content : option string;
  rating : option number;
  imageUrl : option string;
  likes : option number;
  comments : option (list Comment.t);
  createdAt : option string;
  status : option PostStatus
}.
End PartialPost.

(** [Partial<Order>] *)
Module PartialOrder.
Record t := mk {
  id : option string;
  userId : option string;
  items : option (list CartItem.t);
  total : option number;
  status : option OrderStatus;
  trackingNumber : option string;
  createdAt : option string
}.
End PartialOrder.

(** The number [0]. *)
Definition zero : number := QArith_base.Qmake 0 1.

(** [createPost]; [now] is [Date.now()] and [iso] is
    [new Date().toISOString()], read after it. *)
Definition createPost (postData : PartialPost.t) (now : Z) (iso : string)
    : M (ApiResponse Post.t) :=
  attractionId <- non_null (PartialPost.attractionId postData) ;;
  userId <- non_null (PartialPost.userId postData) ;;
  username <- non_null (PartialPost.username postData) ;;
  content <- non_null (PartialPost.content postData) ;;
  let newPost :=
    Post.mk ("post-" ++ show_int now) attractionId userId username content
            (PartialPost.rating postData) (PartialPost.imageUrl postData)
            zero [] iso post_active in
  posts <- read mock_posts [] ;;
  write mock_posts (newPost :: posts) ;;;
  ret (ok newPost).

(** [createOrder], with the clock read as in [createPost]. *)
Definition createOrder (orderData : PartialOrder.t) (now : Z) (iso : string)
    : M (ApiResponse Order.t) :=
  userId <- non_null (PartialOrder.userId orderData) ;;
  items <- non_null (PartialOrder.items orderData) ;;
  total <- non_null (PartialOrder.total orderData) ;;
  let newOrder :=
    Order.mk ("ord-" ++ show_int now) userId items total order_pending None iso in
  orders <- read mock_orders [] ;;
  write mock_orders (newOrder :: orders) ;;;
  ret (ok newOrder).

Definition getOrders (userId merchantId : option string)
    : M (ApiResponse (list Order.t)) :=
  orders <- read mock_orders [] ;;
  let orders :=
    if truthy userId
    then filter (fun o => strict_eq (Some (Order.userId o)) userId) orders
    else orders in
  let orders :=
    if truthy merchantId
    then filter
           (fun o =>
              existsb (fun i => strict_eq
                                  (Some (Product.merchantId (CartItem.product i)))
                                  merchantId)
                      (Order.items o))
           orders
    else orders in
  ret (ok orders).

(** *** The cart of the application shell

    The updaters passed to [setCart], as functions of the previous cart. *)

Section Cart.

(** [+] on numbers. *)
Variable add : number -> number -> number.

Definition addToCart (p : Product.t) (qty : number) (prev : list CartItem.t)
    : list CartItem.t :=
  match find (fun i => String.eqb (Product.id (CartItem.product i)) (Product.id p))
             prev with
  | Some existing =>
      map (fun i =>
             if String.eqb (Product.id (CartItem.product i)) (Product.id p)
             then CartItem.mk (CartItem.product i) (add (CartItem.quantity i) qty)
             else i)
          prev
  | None => (prev ++ [CartItem.mk p qty])%list
  end.

Definition removeFromCart (id : string) (prev : list CartItem.t)
    : list CartItem.t :=
  filter (fun i => negb (String.eqb (Product.id (CartItem.product i)) id)) prev.

Definition clearCart (prev : list CartItem.t) : list CartItem.t := [].

End Cart.

(** [toLowerCase] on the ASCII letters, to run the facade on examples. *)
Definition lower_ascii (c : ascii) : ascii :=
  let n := nat_of_ascii c in
  if ((65 <=? n) && (n <=? 90))%nat then ascii_of_nat (n + 32) else c.

Fixpoint toLowerCase_ascii (s : string) : string :=
  match s with
  | EmptyString => EmptyString
  | String c s' => String (lower_ascii c) (toLowerCase_ascii s')
  end.

(** ** Words of the specification *)

(** [q] is a substring of [s]. *)
Definition is_substring (q s : string) : Prop :=
  exists pre post, s = pre ++ q ++ post.

(** [c] occurs in [s]. *)
Fixpoint occurs (c : ascii) (s : string) : Prop :=
  match s with
  | EmptyString => False
  | String a s' => a = c \/ occurs c s'
  end.

(** [p] is the portion of [s] before the first [c] (all of [s] when [c]
    does not occur in it). *)
Definition before_first (c : ascii) (s p : string) : Prop :=
  ~ occurs c p /\ (s = p \/ exists rest, s = p ++ String c rest).

(** An envelope reporting a failure: [success=false] with a message. *)
Definition is_failure {T} (r : ApiResponse T) : Prop :=
  success r = false /\ exists msg, message r = Some msg.

(** [x] is the first element of [l] that satisfies [P]. *)
Definition first_such {A} (P : A -> Prop) (l : list A) (x : A) : Prop :=
  exists pre post,
    l = (pre ++ x :: post)%list /\ P x /\ forall y, In y pre -> ~ P y.

(** *** Operations aimed at an id that no entity has *)

(** The five slices read the same in both stores. *)
Definition same_slices (st st' : Storage) : Prop :=
  getStorage mock_users INITIAL_USERS st' = getStorage mock_users INITIAL_USERS st /\
  getStorage mock_attractions MOCK_ATTRACTIONS st' =
    getStorage mock_attractions MOCK_ATTRACTIONS st /\
  getStorage mock_posts [] st' = getStorage mock_posts [] st /\
  getStorage mock_products MOCK_PRODUCTS st' = getStorage mock_products MOCK_PRODUCTS st /\
  getStorage mock_orders [] st' = getStorage mock_orders [] st.

(** No stored attraction, post or user has the id. *)
Definition id_unused (st : Storage) (id : string) : Prop :=
  (forall a, In a (getStorage mock_attractions MOCK_ATTRACTIONS st) ->
             Attraction.id a <> id) /\
  (forall p, In p (getStorage mock_posts [] st) -> Post.id p <> id) /\
  (forall u, In u (getStorage mock_users INITIAL_USERS st) -> User.id u <> id).

(** The specification's reading: each of the three operations reports the
    missing target as a failure with a message and changes no slice. *)
Definition missing_target_reported (st : Storage) (id : string)
    (status : UserStatus) : Prop :=
  (exists r st', deleteAttraction id st = Some (r, st') /\
                 is_failure r /\ same_slices st st') /\
  (exists r st', reportPost id st = Some (r, st') /\
                 is_failure r /\ same_slices st st') /\
  (exists r st', updateUserStatus id status st = Some (r, st') /\
                 is_failure r /\ same_slices st st').

(** *** Orders *)

(** The specification's reading of the result of [updateOrderStatus]: the
    returned order has the requested status, and its tracking number is the
    argument when one is passed and the previous one otherwise. *)
Definition tracking_follows_argument (st : Storage) (orderId : string)
    (status : OrderStatus) (trackingNumber : option string) : Prop :=
  exists r st' o previous,
    updateOrderStatus orderId status trackingNumber st = Some (r, st') /\
    success r = true /\ data r = Some o /\
    In previous (getStorage mock_orders [] st) /\
    Order.id previous = orderId /\
    Order.status o = status /\
    Order.trackingNumber o =
      match trackingNumber with
      | Some t => Some t
      | None => Order.trackingNumber previous
      end.

(** A store whose only order was shipped under the number TRACK99. *)
Definition shipped_order_storage : Storage :=
  setStorage mock_orders
    [ Order.mk "ord-1" "u1" [] (QArith_base.Qmake 25 1) order_shipped
               (Some "TRACK99") "2024-05-01T08:00:00.000Z" ]
    empty_storage.

(** A store whose only order is still pending. *)
Definition pending_order_storage : Storage :=
  setStorage mock_orders
    [ Order.mk "ord-1" "u1" [] (QArith_base.Qmake 25 1) order_pending
               None "2024-05-01T08:00:00.000Z" ]
    empty_storage.

(** The order that replaces [o]: the status is the argument, the tracking
    number is the argument when it is a non-empty string and the one of [o]
    otherwise, every other field is the one of [o]. *)
Definition restamped (status : OrderStatus) (trackingNumber : option string)
    (o : Order.t) : Order.t :=
  Order.mk (Order.id o) (Order.userId o) (Order.items o) (Order.total o)
           status
           (match trackingNumber with
            | Some t => if String.eqb t "" then Order.trackingNumber o else Some t
            | None => Order.trackingNumber o
            end)
           (Order.createdAt o).

(** *** Attraction filters *)

Section FilterWords.

Variable toLowerCase : string -> string.

(** The specification's reading: every filter that is passed constrains
    the result. *)
Definition satisfies_given (filters : AttractionFilters) (a : Attraction.t)
    : Prop :=
  (forall p, f_province filters = Some p -> Attraction.province a = Some p) /\
  (forall c, f_city filters = Some c -> Attraction.city a = Some c) /\
  (forall c, f_county filters = Some c -> Attraction.county a = Some c) /\
  (forall t, f_tag filters = Some t -> In t (Attraction.tags a)) /\
  (forall q, f_query filters = Some q ->
     is_substring (toLowerCase q) (toLowerCase (Attraction.title a)) \/
     is_substring (toLowerCase q) (toLowerCase (Attraction.description a))).

Definition returns_given_filters (st : Storage) (filters : AttractionFilters)
    : Prop :=
  exists l,
    getAttractions toLowerCase filters st = Some (ok l, st) /\
    forall a, In a l <->
              In a (getStorage mock_attractions MOCK_ATTRACTIONS st) /\
              satisfies_given filters a.

(** What the code does: only a filter that is a non-empty string
    constrains the result. *)
Definition satisfies_nonempty (filters : AttractionFilters) (a : Attraction.t)
    : Prop :=
  (forall p, f_province filters = Some p -> p <> "" ->
     Attraction.province a = Some p) /\
  (forall c, f_city filters = Some c -> c <> "" ->
     Attraction.city a = Some c) /\
  (forall c, f_county filters = Some c -> c <> "" ->
     Attraction.county a = Some c) /\
  (forall t, f_tag filters = Some t -> t <> "" -> In t (Attraction.tags a)) /\
  (forall q, f_query filters = Some q -> q <> "" ->
     is_substring (toLowerCase q) (toLowerCase (Attraction.title a)) \/
     is_substring (toLowerCase q) (toLowerCase (Attraction.description a))).

(** The same as one test on an attraction. *)
Definition exact_ok (f v : option string) : bool :=
  match f with
  | Some p => if String.eqb p "" then true else strict_eq v (Some p)
  | None => true
  end.

Definition tag_ok (f : option string) (tags : list string) : bool :=
  match f with
  | Some t => if String.eqb t "" then true else array_includes tags t
  | None => true
  end.

Definition query_ok (f : option string) (title description : string) : bool :=
  match f with
  | Some q =>
      if String.eqb q "" then true
      else includes (toLowerCase title) (toLowerCase q) ||
           includes (toLowerCase description) (toLowerCase q)
  | None => true
  end.

Definition passes (filters : AttractionFilters) (a : Attraction.t) : bool :=
  exact_ok (f_province filters) (Attraction.province a) &&
  exact_ok (f_city filters) (Attraction.city a) &&
  exact_ok (f_county filters) (Attraction.county a) &&
  tag_ok (f_tag filters) (Attraction.tags a) &&
  query_ok (f_query filters) (Attraction.title a) (Attraction.description a).

End FilterWords.

(** The call of the home page before any filter is chosen: every filter is
    the empty string. *)
Definition no_filter_chosen : AttractionFilters :=
  mk_filters (Some "") (Some "") (Some "") (Some "") (Some "").

(** *** Invariants and views used below *)

(** No stored post has the status hidden. *)
Definition no_hidden (st : Storage) : Prop :=
  forall p, In p (getStorage mock_posts [] st) -> Post.status p <> post_hidden.

(** The product ids of the lines of a cart. *)
Definition cart_ids (cart : list CartItem.t) : list string :=
  map (fun i => Product.id (CartItem.product i)) cart.

(** The emails of a user slice. *)
Definition emails (users : list User.t) : list string :=
  map User.email users.

(** Some line of the order is sold by the merchant. *)
Definition sold_by (merchantId : string) (o : Order.t) : Prop :=
  exists i, In i (Order.items o) /\
            Product.merchantId (CartItem.product i) = merchantId.

(** ** Lemmas on the primitives *)

Lemma starts_with_spec (q s : string) :
  starts_with q s = true <-> exists post, s = q ++ post.
Proof.
  revert s; induction q as [|c q IH]; intros s; simpl.
  - split; [intros _; now exists s | reflexivity].
  - destruct s as [|d s]; simpl.
    + split; [discriminate | intros [post H]; discriminate].
    + destruct (Ascii.eqb_spec c d) as [->|Hne]; simpl.
      * rewrite IH. split; intros [post H]; exists post.
        -- now rewrite H.
        -- now injection H.
      * split; [discriminate | intros [post H]; injection H; congruence].
Qed.

Lemma includes_spec (s q : string) :
  includes s q = true <-> is_substring q s.
Proof.
  unfold is_substring.
  induction s as [|c s IH]; simpl.
  - rewrite orb_false_r, starts_with_spec. split.
    + intros [post H]; now exists "", post.
    + intros [pre [post H]]. destruct pre; simpl in H.
      * now exists post.
      * discriminate.
  - rewrite orb_true_iff, starts_with_spec, IH. split.
    + intros [[post H] | [pre [post H]]].
      * now exists "", post.
      * exists (String c pre), post. simpl. now rewrite H.
    + intros [pre [post H]]. destruct pre as [|d pre]; simpl in H.
      * left; now exists post.
      * right; exists pre, post. now injection H.
Qed.

Lemma array_includes_spec (arr : list string) (x : string) :
  array_includes arr x = true <-> In x arr.
Proof.
  unfold array_includes. rewrite existsb_exists. split.
  - intros [y [Hin Heq]]. apply String.eqb_eq in Heq. now subst.
  - intros Hin. exists x. split; [assumption | apply String.eqb_refl].
Qed.

Lemma split_not_nil (c : ascii) (s : string) : split c s <> [].
Proof.
  destruct s as [|a s]; simpl; [discriminate|].
  destruct (Ascii.eqb a c); [discriminate|].
  destruct (split c s); discriminate.
Qed.

Lemma split_head_before_first (c : ascii) (s : string) :
  before_first c s (hd EmptyString (split c s)).
Proof.
  unfold before_first.
  induction s as [|a s [IHno IHeq]]; simpl.
  - split; [tauto | now left].
  - destruct (Ascii.eqb_spec a c) as [->|Hne]; simpl.
    + split; [tauto | right; now exists s].
    + pose proof (split_not_nil c s) as Hnil.
      destruct (split c s) as [|seg segs]; [congruence|]. simpl in *.
      split.
      * intros [H|H]; [congruence | tauto].
      * destruct IHeq as [->|[rest ->]]; [now left|].
        right; now exists rest.
Qed.

Lemma truthy_string_iff (s : string) : truthy_string s = true <-> s <> "".
Proof.
  unfold truthy_string. rewrite negb_true_iff. split.
  - intros H ->. now rewrite String.eqb_refl in H.
  - intros H. now apply String.eqb_neq.
Qed.

Lemma strict_eq_some (o : option string) (s : string) :
  strict_eq o (Some s) = true <-> o = Some s.
Proof.
  destruct o as [x|]; simpl.
  - rewrite String.eqb_eq. split; congruence.
  - split; discriminate.
Qed.

Lemma find_first_such {A} (p : A -> bool) (l : list A) (x : A) :
  find p l = Some x <-> first_such (fun y => p y = true) l x.
Proof.
  unfold first_such. induction l as [|a l IH]; simpl.
  - split; [discriminate|]. intros [pre [post [H _]]].
    destruct pre; discriminate.
  - destruct (p a) eqn:Hpa.
    + split.
      * intros [= ->]. exists [], l. simpl. intuition.
      * intros [pre [post [H [Hx Hpre]]]].
        destruct pre as [|b pre]; simpl in H; injection H as -> ->.
        -- reflexivity.
        -- exfalso. eapply Hpre; [left; reflexivity | assumption].
    + rewrite IH. split.
      * intros [pre [post [-> [Hx Hpre]]]].
        exists (a :: pre), post. simpl. split; [reflexivity|].
        split; [assumption|]. intros y [<-|Hy]; [congruence | auto].
      * intros [pre [post [H [Hx Hpre]]]].
        destruct pre as [|b pre]; simpl in H; injection H as -> ->.
        -- congruence.
        -- exists pre, post. split; [reflexivity|]. split; [assumption|].
           intros y Hy. apply Hpre. now right.
Qed.

Lemma find_none_all {A} (p : A -> bool) (l : list A) :
  find p l = None <-> forall y, In y l -> p y = false.
Proof.
  induction l as [|a l IH]; simpl.
  - split; [intros _ y [] | reflexivity].
  - destruct (p a) eqn:Hpa.
    + split; [discriminate|]. intros H. specialize (H a (or_introl eq_refl)).
      congruence.
    + rewrite IH. split.
      * intros H y [<-|Hy]; auto.
      * intros H y Hy. apply H. now right.
Qed.

Lemma filter_all {A} (p : A -> bool) (l : list A) :
  (forall y, In y l -> p y = true) -> filter p l = l.
Proof.
  induction l as [|a l IH]; simpl; intros H; [reflexivity|].
  rewrite (H a (or_introl eq_refl)). f_equal. apply IH. auto.
Qed.

Lemma map_unchanged {A} (p : A -> bool) (f : A -> A) (l : list A) :
  (forall y, In y l -> p y = false) ->
  map (fun y => if p y then f y else y) l = l.
Proof.
  induction l as [|a l IH]; simpl; intros H; [reflexivity|].
  rewrite (H a (or_introl eq_refl)). f_equal. apply IH. auto.
Qed.

(** ** Posts: the status filters *)

(** C3.  Whatever the stored posts and the optional attraction id,
    [getPosts] returns no post whose status is reported, and
    [getReportedContent] returns no post whose status is active.  Both
    return and leave the store as it was. *)
Theorem status_filter_invariant (st : Storage) (attractionId : option string) :
  (exists posts,
      getPosts attractionId st = Some (ok posts, st) /\
      forall p, In p posts -> Post.status p <> post_reported) /\
  (exists posts,
      getReportedContent st = Some (ok posts, st) /\
      forall p, In p posts -> Post.status p <> post_active).
Proof.
  split.
  - unfold getPosts, bind, read, ret. eexists. split; [reflexivity|].
    intros p Hin.
    assert (Hvis : In p (filter (fun p => PostStatus_eqb (Post.status p) post_active)
                                (getStorage mock_posts [] st))).
    { destruct attractionId as [a|]; [|exact Hin].
      destruct (truthy_string a); [|exact Hin].
      apply filter_In in Hin. tauto. }
    apply filter_In in Hvis. destruct Hvis as [_ Hst].
    destruct (Post.status p); simpl in Hst; congruence.
  - unfold getReportedContent, bind, read, ret.
    eexists. split; [reflexivity|].
    intros p Hin. apply filter_In in Hin. destruct Hin as [_ Hst].
    destruct (Post.status p); simpl in Hst; congruence.
Qed.

(** ** Login *)

(** C9.  [login] answers with the first stored user whose lowercased email
    equals the lowercased argument, carrying the token "mock-jwt-" followed
    by the user's id; it answers with a failure and a message when no stored
    email matches; the password plays no part; the store is left as it was. *)
Theorem login_first_match (toLowerCase : string -> string) (st : Storage)
    (email password : string) :
  let users := getStorage mock_users INITIAL_USERS st in
  let same_email u := toLowerCase (User.email u) = toLowerCase email in
  (forall u, first_such same_email users u ->
     login toLowerCase email password st =
       Some (ok (User.mk (User.id u) (User.username u) (User.email u)
                         (User.role u) (Some ("mock-jwt-" ++ User.id u))
                         (User.status u) (User.qualificationUrl u)), st)) /\
  ((forall u, In u users -> ~ same_email u) ->
     exists r, login toLowerCase email password st = Some (r, st) /\
               is_failure r /\ data r = None) /\
  (forall password',
     login toLowerCase email password' st = login toLowerCase email password st) /\
  (exists r, login toLowerCase email password st = Some (r, st)).
Proof.
  intros users same_email.
  set (p := fun u => String.eqb (toLowerCase (User.email u)) (toLowerCase email)).
  assert (Hp : forall u, p u = true <-> same_email u).
  { intros u. unfold p, same_email. apply String.eqb_eq. }
  assert (Hrun : login toLowerCase email password st =
                 match find p users with
                 | Some user =>
                     Some (ok (with_token user (Some ("mock-jwt-" ++ User.id user))), st)
                 | None =>
                     Some (failure
                       "Invalid credentials. Try user@test.com, merchant@test.com, or admin@test.com",
                       st)
                 end).
  { unfold login, bind, read, ret. fold users. fold p.
    destruct (find p users); reflexivity. }
  split; [|split; [|split]].
  - intros u [pre [post [Hl [Hu Hpre]]]].
    assert (Hfind : find p users = Some u).
    { apply find_first_such. exists pre, post. split; [assumption|].
      split; [now apply Hp|]. intros y Hy Hpy. apply (Hpre y Hy). now apply Hp. }
    rewrite Hrun, Hfind. reflexivity.
  - intros Hnone.
    assert (Hfind : find p users = None).
    { apply find_none_all. intros y Hy. destruct (p y) eqn:Hpy; [|reflexivity].
      exfalso. apply (Hnone y Hy). now apply Hp. }
    rewrite Hrun, Hfind. eexists. split; [reflexivity|].
    split; [|reflexivity]. split; [reflexivity|]. eexists. reflexivity.
  - intros password'. reflexivity.
  - rewrite Hrun. destruct (find p users); eexists; reflexivity.
Qed.

Lemma login_first_match_witness :
  login toLowerCase_ascii "USER@Test.com" "whatever" empty_storage =
    Some (ok (User.mk "u1" "Traveler User" "user@test.com" TRAVELER
                      (Some "mock-jwt-u1") user_active None),
          empty_storage).
Proof.
  apply (proj1 (login_first_match toLowerCase_ascii empty_storage
                  "USER@Test.com" "whatever")
               (User.mk "u1" "Traveler User" "user@test.com" TRAVELER None
                        user_active None)).
  exists [ User.mk "admin1" "Admin User" "admin@test.com" ADMIN None user_active None;
           User.mk "m1" "Merchant User" "merchant@test.com" MERCHANT None
                   user_active (Some "https://picsum.photos/200/300") ], [].
  split; [reflexivity|]. split; [reflexivity|].
  intros y [<-|[<-|[]]]; vm_compute; discriminate.
Defined.

(** ** Registration *)

Lemma register_taken_test (users : list User.t) (e : string) :
  (forall u, In u users -> User.email u <> e) ->
  find (fun u => strict_eq (Some (User.email u)) (Some e)) users = None.
Proof.
  intros Hfresh. apply find_none_all. intros y Hy. simpl.
  apply String.eqb_neq. now apply Hfresh.
Qed.

(** What [register] does on an email that no stored user has, letter for
    letter. *)
Lemma register_fresh (st : Storage) (userData : User.partial)
    (password : string) (now : Z) (e : string) :
  let users := getStorage mock_users INITIAL_USERS st in
  User.p_email userData = Some e ->
  (forall u, In u users -> User.email u <> e) ->
  exists u,
    register userData password now st =
      Some (ok u, setStorage mock_users (users ++ [u])%list st) /\
    User.id u = "u-" ++ show_int now /\
    User.username u =
      or_else (User.p_username userData) (hd EmptyString (split "@" e)) /\
    User.email u = e /\
    User.role u = match User.p_role userData with
                  | Some r => r
                  | None => TRAVELER
                  end /\
    User.token u = Some "mock-jwt-new" /\
    User.status u = match User.p_role userData with
                    | Some MERCHANT => user_pending
                    | _ => user_active
                    end /\
    User.qualificationUrl u = User.p_qualificationUrl userData.
Proof.
  intros users He Hfresh.
  unfold register, bind, read, write, ret, non_null. fold users.
  rewrite He, (register_taken_test users e Hfresh).
  eexists. split; [reflexivity|]. simpl. repeat split; reflexivity.
Qed.

(** An email that a stored user already has, letter for letter, is refused
    and nothing is written. *)
Lemma register_same_email_refused (st : Storage) (userData : User.partial)
    (password : string) (now : Z) (e : string) :
  User.p_email userData = Some e ->
  (exists u, In u (getStorage mock_users INITIAL_USERS st) /\ User.email u = e) ->
  register userData password now st = Some (failure "Email already exists", st).
Proof.
  intros He [u [Hin Hu]].
  unfold register, bind, read, ret. rewrite He.
  destruct (find _ _) eqn:Hfind; [reflexivity|].
  exfalso. rewrite find_none_all in Hfind. specialize (Hfind u Hin).
  simpl in Hfind. apply String.eqb_neq in Hfind. contradiction.
Qed.

(** C6.  A registration whose email no stored user has succeeds; the user
    it creates is pending when the requested role is merchant and active for
    any other role, or none; the envelope carries that user, which is added
    at the end of the user slice. *)
Theorem register_status_by_role (st : Storage) (userData : User.partial)
    (password : string) (now : Z) (e : string) :
  let users := getStorage mock_users INITIAL_USERS st in
  User.p_email userData = Some e ->
  (forall u, In u users -> User.email u <> e) ->
  exists r st' u,
    register userData password now st = Some (r, st') /\
    success r = true /\ data r = Some u /\
    User.email u = e /\
    (User.p_role userData = Some MERCHANT -> User.status u = user_pending) /\
    (User.p_role userData <> Some MERCHANT -> User.status u = user_active) /\
    getStorage mock_users INITIAL_USERS st' = (users ++ [u])%list.
Proof.
  intros users He Hfresh.
  destruct (register_fresh st userData password now e He Hfresh)
    as [u [Hrun [_ [_ [Hemail [_ [_ [Hstatus _]]]]]]]].
  exists (ok u), (setStorage mock_users (users ++ [u])%list st), u.
  split; [exact Hrun|]. split; [reflexivity|]. split; [reflexivity|].
  split; [exact Hemail|]. split; [|split; [|reflexivity]].
  - intros Hrole. now rewrite Hstatus, Hrole.
  - intros Hrole. rewrite Hstatus.
    destruct (User.p_role userData) as [[]|]; congruence.
Qed.

Lemma register_status_by_role_witness :
  exists r st' u,
    register (User.mk_partial None None (Some "shop@test.com") (Some MERCHANT)
                              None None (Some "data:image/png;base64,AA"))
             "secret" 1700000000000 empty_storage = Some (r, st') /\
    success r = true /\ data r = Some u /\ User.status u = user_pending.
Proof.
  destruct (register_status_by_role empty_storage
              (User.mk_partial None None (Some "shop@test.com") (Some MERCHANT)
                               None None (Some "data:image/png;base64,AA"))
              "secret" 1700000000000 "shop@test.com" eq_refl)
    as [r [st' [u [Hrun [Hs [Hd [_ [Hm _]]]]]]]].
  - intros u [<-|[<-|[<-|[]]]]; vm_compute; discriminate.
  - exists r, st', u. repeat split; try assumption. apply Hm. reflexivity.
Defined.

(** C10.  A registration whose email no stored user has creates a user
    whose username, when the argument carries none, is the portion of the
    email before its first '@'; whose role, when the argument carries none,
    is traveler; and whose token is "mock-jwt-new". *)
Theorem register_defaults (st : Storage) (userData : User.partial)
    (password : string) (now : Z) (e : string) :
  User.p_email userData = Some e ->
  (forall u, In u (getStorage mock_users INITIAL_USERS st) -> User.email u <> e) ->
  exists st' u,
    register userData password now st = Some (ok u, st') /\
    In u (getStorage mock_users INITIAL_USERS st') /\
    (User.p_username userData = None ->
       before_first "@" e (User.username u)) /\
    (User.p_role userData = None -> User.role u = TRAVELER) /\
    User.token u = Some "mock-jwt-new".
Proof.
  intros He Hfresh.
  destruct (register_fresh st userData password now e He Hfresh)
    as [u [Hrun [_ [Hname [_ [Hrole [Htoken _]]]]]]].
  eexists. exists u. split; [exact Hrun|].
  split; [|split; [|split; [|exact Htoken]]].
  - unfold getStorage, setStorage. simpl. apply in_or_app. right. now left.
  - intros Hnone. rewrite Hname, Hnone. simpl. apply split_head_before_first.
  - intros Hnone. now rewrite Hrole, Hnone.
Qed.

Lemma register_defaults_witness :
  exists st' u,
    register (User.mk_partial None None (Some "li.wei@example.com") None
                              None None None)
             "secret" 1700000000000 empty_storage = Some (ok u, st') /\
    User.username u = "li.wei" /\ User.role u = TRAVELER /\
    User.token u = Some "mock-jwt-new".
Proof.
  destruct (register_defaults empty_storage
              (User.mk_partial None None (Some "li.wei@example.com") None
                               None None None)
              "secret" 1700000000000 "li.wei@example.com" eq_refl)
    as [st' [u [Hrun [_ [_ [Hrole Htoken]]]]]].
  - intros u [<-|[<-|[<-|[]]]]; vm_compute; discriminate.
  - exists st', u. split; [exact Hrun|].
    split; [|split; [apply Hrole; reflexivity | exact Htoken]].
    vm_compute in Hrun. injection Hrun as Hu _.
    inversion Hu. reflexivity.
Defined.

(** C1.  The code accepts a second registration whose email differs from a
    stored one only by the case of its letters: [register] compares emails
    with [===], where [login] compares their lowercased forms.  After
    "A@x.com", "a@x.com" is registered too, the user slice grows by one
    more user, and [login] can only ever reach the first of the two. *)
Theorem register_accepts_case_variant :
  let first := User.mk_partial None None (Some "A@x.com") None None None None in
  let second := User.mk_partial None None (Some "a@x.com") None None None None in
  toLowerCase_ascii "A@x.com" = toLowerCase_ascii "a@x.com" /\
  exists r1 st1 r2 st2,
    register first "pw" 1700000000000 empty_storage = Some (r1, st1) /\
    register second "pw" 1700000000001 st1 = Some (r2, st2) /\
    success r1 = true /\
    success r2 = true /\ message r2 = None /\
    getStorage mock_users INITIAL_USERS st2 <>
      getStorage mock_users INITIAL_USERS st1 /\
    List.length (getStorage mock_users INITIAL_USERS st2) =
      S (List.length (getStorage mock_users INITIAL_USERS st1)) /\
    option_map User.email
      (match login toLowerCase_ascii "a@x.com" "pw" st2 with
       | Some (r, _) => data r
       | None => None
       end) = Some "A@x.com".
Proof.
  split; [reflexivity|].
  do 4 eexists.
  split; [vm_compute; reflexivity|].
  split; [vm_compute; reflexivity|].
  split; [reflexivity|]. split; [reflexivity|]. split; [reflexivity|].
  split; [|split; reflexivity].
  intros H. apply (f_equal (@List.length _)) in H. vm_compute in H. discriminate.
Qed.

(** ** Operations aimed at an id that no entity has *)

(** C2, as the code has it.  When no stored entity has the id,
    [deleteAttraction], [reportPost] and [updateUserStatus] each return the
    envelope [success=true, data=true] without a message, and every slice
    reads as before. *)
Theorem missing_target_is_silent_success (st : Storage) (id : string)
    (status : UserStatus) :
  id_unused st id ->
  (exists st', deleteAttraction id st =
                 Some ({| success := true; data := Some true; message := None |}, st') /\
               same_slices st st') /\
  (exists st', reportPost id st =
                 Some ({| success := true; data := Some true; message := None |}, st') /\
               same_slices st st') /\
  (exists st', updateUserStatus id status st =
                 Some ({| success := true; data := Some true; message := None |}, st') /\
               same_slices st st').
Proof.
  intros [Hattr [Hpost Huser]].
  split; [|split].
  - unfold deleteAttraction, bind, read, write, ret.
    eexists. split; [reflexivity|].
    unfold same_slices, getStorage, setStorage; simpl.
    repeat split; try reflexivity.
    apply filter_all. intros a Ha. apply negb_true_iff, String.eqb_neq.
    now apply Hattr.
  - unfold reportPost, bind, read, write, ret.
    eexists. split; [reflexivity|].
    unfold same_slices, getStorage, setStorage; simpl.
    repeat split; try reflexivity.
    apply (map_unchanged (fun p => String.eqb (Post.id p) id)
                         (fun p => with_post_status p post_reported)).
    intros p Hp. apply String.eqb_neq. now apply Hpost.
  - unfold updateUserStatus, bind, read, write, ret.
    eexists. split; [reflexivity|].
    unfold same_slices, getStorage, setStorage; simpl.
    repeat split; try reflexivity.
    apply (map_unchanged (fun u => String.eqb (User.id u) id)
                         (fun u => with_user_status u status)).
    intros u Hu. apply String.eqb_neq. now apply Huser.
Qed.

Lemma unused_id_example : id_unused empty_storage "no-such-id".
Proof.
  split; [|split].
  - intros a [<-|[<-|[<-|[<-|[<-|[]]]]]]; vm_compute; discriminate.
  - intros p [].
  - intros u [<-|[<-|[<-|[]]]]; vm_compute; discriminate.
Defined.

Lemma missing_target_is_silent_success_witness :
  id_unused empty_storage "no-such-id" /\
  exists st',
    deleteAttraction "no-such-id" empty_storage =
      Some ({| success := true; data := Some true; message := None |}, st') /\
    same_slices empty_storage st'.
Proof.
  split; [exact unused_id_example|].
  exact (proj1 (missing_target_is_silent_success empty_storage "no-such-id"
                  user_rejected unused_id_example)).
Defined.

(** C2, as the specification words it, fails: on the initial store no
    entity has the id "no-such-id", yet none of the three operations answers
    with a failure. *)
Lemma missing_target_not_reported :
  id_unused empty_storage "no-such-id" /\
  ~ missing_target_reported empty_storage "no-such-id" user_rejected.
Proof.
  split; [exact unused_id_example|].
  intros [[r [st' [Hrun [[Hfail _] _]]]] _].
  vm_compute in Hrun. injection Hrun as <- _.
  discriminate Hfail.
Qed.

(** ** Attractions: creating and reading back *)

(** C4.  For an argument that carries title, description, address, province
    and city, [createAttraction] succeeds, and [getAttractionById] on the
    id of the record it returns succeeds with that same record: the fields
    of the argument, the id "attr-" followed by the clock, the region made
    of the province, a space and the city, the tags and the gallery of the
    argument or the empty list, and the image of the argument or, when it is
    absent or empty, the placeholder. *)
Theorem create_then_get_attraction (st : Storage)
    (attractionData : Attraction.partial) (now : Z)
    (title description address province city : string) :
  Attraction.p_title attractionData = Some title ->
  Attraction.p_description attractionData = Some description ->
  Attraction.p_address attractionData = Some address ->
  Attraction.p_province attractionData = Some province ->
  Attraction.p_city attractionData = Some city ->
  exists created st1,
    createAttraction attractionData now st =
      Some ({| success := true; data := Some created; message := None |}, st1) /\
    getAttractionById (Attraction.id created) st1 =
      Some ({| success := true; data := Some created; message := None |}, st1) /\
    created =
      Attraction.mk
        ("attr-" ++ show_int now) title description address
        (province ++ " " ++ city)
        (Some province) (Some city) (Attraction.p_county attractionData)
        (match Attraction.p_tags attractionData with
         | Some tags => tags
         | None => []
         end)
        (match Attraction.p_imageUrl attractionData with
         | Some url =>
             if String.eqb url "" then "https://picsum.photos/800/600?random=99"
             else url
         | None => "https://picsum.photos/800/600?random=99"
         end)
        (Some (match Attraction.p_gallery attractionData with
               | Some gallery => gallery
               | None => []
               end))
        (Attraction.p_openHours attractionData)
        (Attraction.p_drivingTips attractionData).
Proof.
  intros Ht Hd Ha Hp Hc.
  unfold createAttraction, bind, read, write, ret, non_null.
  rewrite Ht, Hd, Ha, Hp, Hc.
  eexists. eexists. split; [reflexivity|]. split.
  - unfold getAttractionById, bind, read, ret, getStorage, setStorage. simpl.
    rewrite String.eqb_refl. reflexivity.
  - unfold or_else, or_else_list, truthy_string. simpl.
    destruct (Attraction.p_imageUrl attractionData) as [url|]; [|reflexivity].
    destruct (String.eqb url ""); reflexivity.
Qed.

Lemma create_then_get_attraction_witness :
  exists created st1,
    createAttraction
      (Attraction.mk_partial None (Some "Leshan Giant Buddha")
         (Some "A 71-metre stone statue.") (Some "Leshan, Sichuan") None
         (Some "Sichuan") (Some "Leshan") (Some "Shizhong") None (Some "")
         None None None)
      1700000000000 empty_storage = Some (ok created, st1) /\
    getAttractionById "attr-1700000000000" st1 = Some (ok created, st1) /\
    Attraction.region created = "Sichuan Leshan" /\
    Attraction.imageUrl created = "https://picsum.photos/800/600?random=99".
Proof.
  destruct (create_then_get_attraction empty_storage
              (Attraction.mk_partial None (Some "Leshan Giant Buddha")
                 (Some "A 71-metre stone statue.") (Some "Leshan, Sichuan") None
                 (Some "Sichuan") (Some "Leshan") (Some "Shizhong") None (Some "")
                 None None None)
              1700000000000 "Leshan Giant Buddha" "A 71-metre stone statue."
              "Leshan, Sichuan" "Sichuan" "Leshan"
              eq_refl eq_refl eq_refl eq_refl eq_refl)
    as [created [st1 [Hcreate [Hget Hrec]]]].
  exists created, st1.
  split; [exact Hcreate|]. rewrite Hrec in Hget |- *.
  split; [exact Hget|]. split; reflexivity.
Defined.

(** ** Orders: status and tracking number *)

Section UpdateOrder.

Variables (orderId : string) (status : OrderStatus)
          (trackingNumber : option string).

Local Abbreviation callback :=
  (fun (o : Order.t) (updatedOrder : option Order.t) =>
     if String.eqb (Order.id o) orderId
     then
       let updated :=
         with_order_status o status
           (or_else_opt trackingNumber (Order.trackingNumber o)) in
       (updated, Some updated)
     else (o, updatedOrder)).

Lemma with_order_status_restamped (o : Order.t) :
  with_order_status o status
    (or_else_opt trackingNumber (Order.trackingNumber o)) = restamped status trackingNumber o.
Proof.
  unfold with_order_status, restamped, or_else_opt, truthy, truthy_string.
  destruct trackingNumber as [t|]; [|reflexivity].
  destruct (String.eqb t ""); reflexivity.
Qed.

Lemma map_capturing_orders (l : list Order.t) :
  forall acc,
    fst (map_capturing callback l acc) =
      map (fun o => if String.eqb (Order.id o) orderId then restamped status trackingNumber o else o) l /\
    ((forall o, In o l -> Order.id o <> orderId) ->
       snd (map_capturing callback l acc) = acc) /\
    (forall pre o post,
       l = (pre ++ o :: post)%list -> Order.id o = orderId ->
       (forall y, In y post -> Order.id y <> orderId) ->
       snd (map_capturing callback l acc) = Some (restamped status trackingNumber o)).
Proof.
  induction l as [|x l IH]; intros acc.
  - simpl. split; [reflexivity|]. split; [reflexivity|].
    intros pre o post H. destruct pre; discriminate.
  - simpl. rewrite with_order_status_restamped.
    destruct (String.eqb_spec (Order.id x) orderId) as [Hx|Hx].
    + destruct (IH (Some (restamped status trackingNumber x))) as [Hfst [Hnone Hlast]].
      destruct (map_capturing callback l (Some (restamped status trackingNumber x))) as [ys s2].
      simpl in *. split; [now rewrite Hfst|]. split.
      * intros Hall. exfalso. apply (Hall x); auto.
      * intros pre o post Hl Ho Hpost.
        destruct pre as [|b pre]; simpl in Hl; injection Hl as Hb Hl'.
        -- subst x l. now apply Hnone.
        -- now apply (Hlast pre o post).
    + destruct (IH acc) as [Hfst [Hnone Hlast]].
      destruct (map_capturing callback l acc) as [ys s2].
      simpl in *. split; [now rewrite Hfst|]. split.
      * intros Hall. apply Hnone. intros o Ho. apply Hall. now right.
      * intros pre o post Hl Ho Hpost.
        destruct pre as [|b pre]; simpl in Hl; injection Hl as Hb Hl'.
        -- congruence.
        -- now apply (Hlast pre o post).
Qed.

Lemma updateOrderStatus_run (st : Storage) :
  updateOrderStatus orderId status trackingNumber st =
    match snd (map_capturing callback (getStorage mock_orders [] st) None) with
    | None => Some (failure "Order not found", st)
    | Some updatedOrder =>
        Some (ok updatedOrder,
              setStorage mock_orders
                (fst (map_capturing callback (getStorage mock_orders [] st) None))
                st)
    end.
Proof.
  unfold updateOrderStatus, bind, read, write, ret.
  destruct (map_capturing callback (getStorage mock_orders [] st) None) as [l [u|]];
    reflexivity.
Qed.

End UpdateOrder.

Lemma last_such_exists {A} (p : A -> bool) (l : list A) :
  (exists x, In x l /\ p x = true) ->
  exists pre x post,
    l = (pre ++ x :: post)%list /\ p x = true /\
    forall y, In y post -> p y = false.
Proof.
  induction l as [|a l IH]; intros [x [Hin Hx]]; [destruct Hin|].
  destruct (find p l) as [z|] eqn:Hfind.
  - apply find_some in Hfind.
    destruct (IH (ex_intro _ z Hfind)) as [pre [o [post [-> [Ho Hpost]]]]].
    exists (a :: pre), o, post. auto.
  - rewrite find_none_all in Hfind.
    destruct Hin as [->|Hin].
    + exists [], x, l. auto.
    + rewrite (Hfind x Hin) in Hx. discriminate.
Qed.

(** Without an order of that id nothing is written and the answer is a
    failure. *)
Lemma update_order_status_missing (st : Storage) (orderId : string)
    (status : OrderStatus) (trackingNumber : option string) :
  (forall o, In o (getStorage mock_orders [] st) -> Order.id o <> orderId) ->
  updateOrderStatus orderId status trackingNumber st =
    Some (failure "Order not found", st).
Proof.
  intros Hnone.
  destruct (map_capturing_orders orderId status trackingNumber
              (getStorage mock_orders [] st) None) as [_ [Hacc _]].
  specialize (Hacc Hnone).
  rewrite updateOrderStatus_run. cbv zeta in Hacc |- *.
  rewrite Hacc. reflexivity.
Qed.

(** C5, as the code has it.  When the order slice holds an order with the
    id, [updateOrderStatus] succeeds and returns, restamped, the last such
    order of the slice: its status is the argument; its tracking number is
    the argument when that is a non-empty string, and the number the order
    had before when the argument is absent or the empty string; its other
    fields are as before.  In the stored slice every order with the id is
    restamped in that way, every other order is as before, and the other
    slices are not written. *)
Theorem update_order_status_restamps (st : Storage) (orderId : string)
    (status : OrderStatus) (trackingNumber : option string) :
  let orders := getStorage mock_orders [] st in
  (exists o, In o orders /\ Order.id o = orderId) ->
  exists o post st',
    updateOrderStatus orderId status trackingNumber st =
      Some ({| success := true;
               data := Some (restamped status trackingNumber o);
               message := None |}, st') /\
    In o orders /\ Order.id o = orderId /\
    (exists pre, orders = (pre ++ o :: post)%list) /\
    (forall y, In y post -> Order.id y <> orderId) /\
    Order.status (restamped status trackingNumber o) = status /\
    (forall t, trackingNumber = Some t -> t <> "" ->
       Order.trackingNumber (restamped status trackingNumber o) = Some t) /\
    (trackingNumber = None \/ trackingNumber = Some "" ->
       Order.trackingNumber (restamped status trackingNumber o) =
         Order.trackingNumber o) /\
    getStorage mock_orders [] st' =
      map (fun x => if String.eqb (Order.id x) orderId
                    then restamped status trackingNumber x else x) orders /\
    users_item st' = users_item st /\
    attractions_item st' = attractions_item st /\
    posts_item st' = posts_item st /\
    products_item st' = products_item st.
Proof.
  intros orders Hex.
  destruct (last_such_exists (fun o => String.eqb (Order.id o) orderId) orders)
    as [pre [o [post [Hl [Ho Hpost]]]]].
  { destruct Hex as [o [Hin Ho]]. exists o. split; [assumption|].
    now apply String.eqb_eq. }
  apply String.eqb_eq in Ho.
  assert (Hpost' : forall y, In y post -> Order.id y <> orderId).
  { intros y Hy. apply String.eqb_neq. now apply Hpost. }
  destruct (map_capturing_orders orderId status trackingNumber orders None)
    as [Hfst [_ Hlast]].
  specialize (Hlast pre o post Hl Ho Hpost').
  exists o, post. eexists.
  split.
  { rewrite updateOrderStatus_run. unfold orders in Hlast.
    cbv zeta in Hlast |- *. rewrite Hlast. reflexivity. }
  split. { rewrite Hl. apply in_or_app. right. now left. }
  split; [exact Ho|].
  split; [now exists pre|].
  split; [exact Hpost'|].
  split; [reflexivity|].
  split.
  { intros t -> Ht. simpl. apply String.eqb_neq in Ht. now rewrite Ht. }
  split.
  { intros [->| ->]; reflexivity. }
  split.
  { unfold getStorage at 1. unfold setStorage. simpl. fold orders. exact Hfst. }
  repeat split.
Qed.

Lemma update_order_status_restamps_witness :
  exists st',
    updateOrderStatus "ord-1" order_shipped (Some "TRACK99") pending_order_storage =
      Some (ok (Order.mk "ord-1" "u1" [] (QArith_base.Qmake 25 1) order_shipped
                         (Some "TRACK99") "2024-05-01T08:00:00.000Z"), st') /\
    updateOrderStatus "ord-1" order_shipped None st' =
      Some (ok (Order.mk "ord-1" "u1" [] (QArith_base.Qmake 25 1) order_shipped
                         (Some "TRACK99") "2024-05-01T08:00:00.000Z"), st').
Proof.
  destruct (update_order_status_restamps pending_order_storage "ord-1"
              order_shipped (Some "TRACK99"))
    as [o [post [st' [Hrun [Hin _]]]]].
  - eexists. split; [left; reflexivity | reflexivity].
  - destruct Hin as [<-|[]].
    vm_compute in Hrun. exists shipped_order_storage.
    split; vm_compute; reflexivity.
Defined.

(** C5, as the specification words it, fails: an empty string passed as the
    tracking number does not become the tracking number of the order, which
    keeps TRACK99. *)
Lemma empty_tracking_is_not_stored :
  (exists o, In o (getStorage mock_orders [] shipped_order_storage) /\
             Order.id o = "ord-1") /\
  ~ tracking_follows_argument shipped_order_storage "ord-1" order_delivered
      (Some "").
Proof.
  split.
  - eexists. split; [left; reflexivity | reflexivity].
  - intros [r [st' [o [previous [Hrun [_ [Hdata [_ [_ [_ Htrack]]]]]]]]]].
    vm_compute in Hrun. injection Hrun as <- _.
    simpl in Hdata. injection Hdata as <-.
    simpl in Htrack. discriminate Htrack.
Qed.

(** ** Attractions: the filters *)

Section Filters.

Variable toLowerCase : string -> string.

Lemma exact_ok_spec (f v : option string) :
  exact_ok f v = true <-> forall p, f = Some p -> p <> "" -> v = Some p.
Proof.
  unfold exact_ok. destruct f as [p|].
  - destruct (String.eqb_spec p "") as [->|Hp].
    + split; [|reflexivity]. intros _ q [= <-] Hq. congruence.
    + rewrite strict_eq_some. split.
      * intros -> q [= <-] _. reflexivity.
      * intros H. now apply H.
  - split; [|reflexivity]. intros _ p H. discriminate.
Qed.

Lemma tag_ok_spec (f : option string) (tags : list string) :
  tag_ok f tags = true <-> forall t, f = Some t -> t <> "" -> In t tags.
Proof.
  unfold tag_ok. destruct f as [t|].
  - destruct (String.eqb_spec t "") as [->|Ht].
    + split; [|reflexivity]. intros _ q [= <-] Hq. congruence.
    + rewrite array_includes_spec. split.
      * intros H q [= <-] _. exact H.
      * intros H. now apply H.
  - split; [|reflexivity]. intros _ t H. discriminate.
Qed.

Lemma query_ok_spec (f : option string) (title description : string) :
  query_ok toLowerCase f title description = true <->
  forall q, f = Some q -> q <> "" ->
    is_substring (toLowerCase q) (toLowerCase title) \/
    is_substring (toLowerCase q) (toLowerCase description).
Proof.
  unfold query_ok. destruct f as [q|].
  - destruct (String.eqb_spec q "") as [->|Hq].
    + split; [|reflexivity]. intros _ q [= <-] Hq. congruence.
    + rewrite orb_true_iff, !includes_spec. split.
      * intros H q' [= <-] _. exact H.
      * intros H. now apply H.
  - split; [|reflexivity]. intros _ q H. discriminate.
Qed.

Lemma passes_spec (filters : AttractionFilters) (a : Attraction.t) :
  passes toLowerCase filters a = true <-> satisfies_nonempty toLowerCase filters a.
Proof.
  unfold passes, satisfies_nonempty.
  rewrite !andb_true_iff, !exact_ok_spec, tag_ok_spec, query_ok_spec.
  tauto.
Qed.

End Filters.

Lemma filter_twice {A} (p q : A -> bool) (l : list A) :
  filter p (filter q l) = filter (fun x => q x && p x) l.
Proof.
  induction l as [|a l IH]; simpl; [reflexivity|].
  destruct (q a); simpl; [|exact IH].
  destruct (p a); now rewrite IH.
Qed.

Lemma getAttractions_run (toLowerCase : string -> string) (st : Storage)
    (filters : AttractionFilters) :
  getAttractions toLowerCase filters st =
    Some (ok (filter (passes toLowerCase filters)
                     (getStorage mock_attractions MOCK_ATTRACTIONS st)), st).
Proof.
  unfold getAttractions, bind, read, ret. cbv zeta.
  set (slice := getStorage mock_attractions MOCK_ATTRACTIONS st).
  do 2 f_equal. f_equal.
  destruct filters as [fp fc fco fq ft].
  unfold passes, exact_ok, tag_ok, query_ok, truthy, truthy_string. simpl.
  destruct fp as [fp|]; [destruct (String.eqb fp "")|];
  (destruct fc as [fc|]; [destruct (String.eqb fc "")|]);
  (destruct fco as [fco|]; [destruct (String.eqb fco "")|]);
  (destruct ft as [ft|]; [destruct (String.eqb ft "")|]);
  (destruct fq as [fq|]; [destruct (String.eqb fq "")|]);
  simpl; rewrite ?filter_twice;
  first [ symmetry; apply filter_all; reflexivity
        | apply filter_ext; intros a; simpl;
          rewrite ?andb_true_r, ?andb_assoc; reflexivity ].
Qed.

(** C7, as the code has it.  [getAttractions] returns, in the order of the
    slice, exactly the attractions that satisfy every filter that is a
    non-empty string: equality for province, city and county, membership in
    the tag list for tag, and for query the lowercased query being a
    substring of the lowercased title or of the lowercased description.  A
    filter that is absent or the empty string constrains nothing. *)
Theorem getAttractions_nonempty_filters (toLowerCase : string -> string)
    (st : Storage) (filters : AttractionFilters) :
  let slice := getStorage mock_attractions MOCK_ATTRACTIONS st in
  exists l,
    getAttractions toLowerCase filters st =
      Some ({| success := true; data := Some l; message := None |}, st) /\
    l = filter (passes toLowerCase filters) slice /\
    (forall a, passes toLowerCase filters a = true <->
               satisfies_nonempty toLowerCase filters a) /\
    (forall a, In a l <-> In a slice /\ satisfies_nonempty toLowerCase filters a).
Proof.
  intros slice. exists (filter (passes toLowerCase filters) slice).
  split; [apply getAttractions_run|]. split; [reflexivity|].
  split; [intros a; apply passes_spec|].
  intros a. rewrite filter_In, passes_spec. tauto.
Qed.

(** C7, as the specification words it, fails: with every filter passed as
    the empty string all five stored attractions are returned, though none
    of them has an empty province. *)
Lemma empty_filters_constrain_nothing :
  ~ returns_given_filters toLowerCase_ascii empty_storage no_filter_chosen.
Proof.
  intros [l [Hrun Hiff]].
  rewrite getAttractions_run in Hrun. injection Hrun as Hl.
  assert (Hin : In (hd (Attraction.mk "" "" "" "" "" None None None [] "" None None None)
                       MOCK_ATTRACTIONS) l).
  { rewrite <- Hl. vm_compute. left. reflexivity. }
  apply Hiff in Hin. destruct Hin as [_ [Hprov _]].
  specialize (Hprov "" eq_refl). vm_compute in Hprov. discriminate Hprov.
Qed.

(** ** Products: the attraction title is a snapshot *)

Lemma findIndex_find {A} (p : A -> bool) (l : list A) (x : A) :
  find p l = Some x ->
  exists i, findIndex p l = Some i /\ nth_error l i = Some x.
Proof.
  induction l as [|a l IH]; simpl; [discriminate|].
  destruct (p a).
  - intros [= ->]. exists 0. auto.
  - intros H. destruct (IH H) as [i [Hi Hn]]. exists (S i).
    rewrite Hi. auto.
Qed.

Lemma findIndex_in_range {A} (p : A -> bool) (l : list A) (i : nat) :
  findIndex p l = Some i -> exists x, nth_error l i = Some x /\ p x = true.
Proof.
  revert i. induction l as [|a l IH]; simpl; intros i; [discriminate|].
  destruct (p a) eqn:Hpa.
  - intros [= <-]. exists a. auto.
  - destruct (findIndex p l) as [k|]; [|discriminate].
    intros [= <-]. exact (IH k eq_refl).
Qed.

(** [updateAttraction] always returns: the index found by [findIndex] is
    inside the array. *)
Lemma updateAttraction_returns (id : string) (updates : Attraction.partial)
    (st : Storage) :
  exists r st', updateAttraction id updates st = Some (r, st').
Proof.
  unfold updateAttraction, bind, read, write, ret, non_null.
  destruct (findIndex _ _) as [i|] eqn:Hi.
  - destruct (findIndex_in_range _ _ _ Hi) as [x [Hx _]].
    rewrite Hx. eexists. eexists. reflexivity.
  - eexists. eexists. reflexivity.
Qed.

(** [updateAttraction] writes the attraction slice and nothing else. *)
Lemma updateAttraction_frame (id : string) (updates : Attraction.partial)
    (st st' : Storage) (r : ApiResponse Attraction.t) :
  updateAttraction id updates st = Some (r, st') ->
  users_item st' = users_item st /\ posts_item st' = posts_item st /\
  products_item st' = products_item st /\ orders_item st' = orders_item st.
Proof.
  unfold updateAttraction, bind, read, write, ret, non_null.
  destruct (findIndex _ _) as [i|].
  - destruct (nth_error _ i); [|discriminate].
    intros [= <- <-]. repeat split.
  - intros [= <- <-]. repeat split.
Qed.

(** C8.  A product created with the id (a non-empty string, as line 349 of
    the facade requires of a link) of an existing attraction stores that
    attraction's title of the moment; after [updateAttraction] on that
    attraction, whatever the update (a new title among others), the product
    slice is what it was, and the stored product still carries the old
    title.  [updateAttraction] never writes the product slice. *)
Theorem product_title_is_a_snapshot (st : Storage) (product : Product.partial)
    (now now' : Z) (x : string) (X : Attraction.t)
    (merchantId name description : string) (price stock : number)
    (updates : Attraction.partial) :
  let attractions := getStorage mock_attractions MOCK_ATTRACTIONS st in
  let products := getStorage mock_products MOCK_PRODUCTS st in
  Product.p_attractionId product = Some x ->
  x <> "" ->
  first_such (fun a => Attraction.id a = x) attractions X ->
  Product.p_merchantId product = Some merchantId ->
  Product.p_name product = Some name ->
  Product.p_description product = Some description ->
  Product.p_price product = Some price ->
  Product.p_stock product = Some stock ->
  exists created st1 updated st2,
    createProduct product now now' st = Some (ok created, st1) /\
    Product.attractionId created = Some x /\
    Product.attractionName created = Some (Attraction.title X) /\
    getStorage mock_products MOCK_PRODUCTS st1 = (products ++ [created])%list /\
    updateAttraction x updates st1 = Some (ok updated, st2) /\
    (forall t, Attraction.p_title updates = Some t ->
               Attraction.title updated = t) /\
    products_item st2 = products_item st1 /\
    getStorage mock_products MOCK_PRODUCTS st2 = (products ++ [created])%list /\
    (forall s r s', updateAttraction x updates s = Some (r, s') ->
                    products_item s' = products_item s).
Proof.
  intros attractions products Hid Hx HX Hm Hn Hd Hp Hs.
  assert (Hfind : find (fun a => String.eqb (Attraction.id a) x) attractions = Some X).
  { apply find_first_such. destruct HX as [pre [post [Hl [HXid Hpre]]]].
    exists pre, post. split; [assumption|]. split; [now apply String.eqb_eq|].
    intros y Hy Hyx. apply (Hpre y Hy). now apply String.eqb_eq. }
  destruct (findIndex_find _ _ _ Hfind) as [i [Hi Hnth]].
  apply truthy_string_iff in Hx.
  unfold createProduct, bind, read, write, ret, non_null.
  rewrite Hid, Hm, Hn, Hd, Hp, Hs. simpl. rewrite Hx.
  fold attractions. rewrite Hfind.
  eexists. eexists. exists (merge_attraction X updates). eexists.
  split; [reflexivity|]. split; [reflexivity|]. split; [reflexivity|].
  split; [reflexivity|].
  split.
  { unfold updateAttraction, bind, read, write, ret, non_null.
    unfold getStorage, setStorage. simpl.
    change (match attractions_item st with
            | Some stored => stored
            | None => MOCK_ATTRACTIONS
            end) with attractions.
    rewrite Hi, Hnth. reflexivity. }
  split.
  { intros t Ht. simpl. now rewrite Ht. }
  split; [reflexivity|]. split; [reflexivity|].
  intros s r s' Hrun. apply (updateAttraction_frame _ _ _ _ _ Hrun).
Qed.

Lemma product_title_is_a_snapshot_witness :
  exists created st1 updated st2,
    createProduct
      (Product.mk_partial None (Some "m1") None (Some "3") None
         (Some "Longjing Tea") (Some "Green tea from the West Lake hills.")
         (Some (QArith_base.Qmake 30 1)) (Some (QArith_base.Qmake 10 1)) None)
      1700000000000 1700000000001 empty_storage = Some (ok created, st1) /\
    Product.attractionName created = Some "West Lake Cultural Landscape" /\
    updateAttraction "3"
      (Attraction.mk_partial None (Some "Xi Hu") None None None None None None
                             None None None None None)
      st1 = Some (ok updated, st2) /\
    Attraction.title updated = "Xi Hu" /\
    getStorage mock_products MOCK_PRODUCTS st2 = (MOCK_PRODUCTS ++ [created])%list.
Proof.
  destruct (product_title_is_a_snapshot empty_storage
              (Product.mk_partial None (Some "m1") None (Some "3") None
                 (Some "Longjing Tea") (Some "Green tea from the West Lake hills.")
                 (Some (QArith_base.Qmake 30 1)) (Some (QArith_base.Qmake 10 1)) None)
              1700000000000 1700000000001 "3"
              (nth 2 MOCK_ATTRACTIONS
                   (Attraction.mk "" "" "" "" "" None None None [] "" None None None))
              "m1" "Longjing Tea" "Green tea from the West Lake hills."
              (QArith_base.Qmake 30 1) (QArith_base.Qmake 10 1)
              (Attraction.mk_partial None (Some "Xi Hu") None None None None None
                                     None None None None None None)
              eq_refl)
    as [created [st1 [updated [st2 [Hc [_ [Hname [_ [Hu [Ht [_ [Hp _]]]]]]]]]]]];
    try reflexivity.
  - discriminate.
  - exists (firstn 2 MOCK_ATTRACTIONS), (skipn 3 MOCK_ATTRACTIONS).
    split; [reflexivity|]. split; [reflexivity|].
    intros y [<-|[<-|[]]]; vm_compute; discriminate.
  - exists created, st1, updated, st2.
    split; [exact Hc|]. split; [exact Hname|]. split; [exact Hu|].
    split; [apply Ht; reflexivity | exact Hp].
Defined.

(** ** Posts: reporting and moderation *)

Lemma filter_swap {A} (p q : A -> bool) (l : list A) :
  filter p (filter q l) = filter q (filter p l).
Proof.
  rewrite !filter_twice. apply filter_ext. intros a. apply andb_comm.
Qed.

Lemma visible_posts_run (attractionId : option string) (st : Storage) :
  getPosts attractionId st =
    Some (ok (filter (fun p => match attractionId with
                               | Some a => if truthy_string a
                                           then String.eqb (Post.attractionId p) a
                                           else true
                               | None => true
                               end)
                     (filter (fun p => PostStatus_eqb (Post.status p) post_active)
                             (getStorage mock_posts [] st))), st).
Proof.
  unfold getPosts, bind, read, ret. cbv zeta.
  do 2 f_equal. f_equal.
  destruct attractionId as [a|]; [destruct (truthy_string a)|];
    try reflexivity; symmetry; apply filter_all; reflexivity.
Qed.

Lemma with_post_status_id (p : Post.t) (s : PostStatus) :
  Post.id (with_post_status p s) = Post.id p.
Proof. reflexivity. Qed.

(** After [reportPost], no post of that id is in the public listing,
    whatever the attraction asked for; every stored post of that id is in
    the moderation queue with the status reported; posts of other ids are
    listed as they were. *)
Theorem report_moves_post_to_queue (st : Storage) (postId : string)
    (attractionId : option string) :
  exists st1 before visible queue,
    reportPost postId st = Some (ok true, st1) /\
    getPosts attractionId st = Some (ok before, st) /\
    getPosts attractionId st1 = Some (ok visible, st1) /\
    getReportedContent st1 = Some (ok queue, st1) /\
    (forall p, In p visible -> Post.id p <> postId) /\
    (forall p, In p (getStorage mock_posts [] st) -> Post.id p = postId ->
               In (with_post_status p post_reported) queue) /\
    (forall p, Post.id p <> postId -> (In p visible <-> In p before)).
Proof.
  set (f := fun p => if String.eqb (Post.id p) postId
                     then with_post_status p post_reported else p).
  set (posts := getStorage mock_posts [] st).
  exists (setStorage mock_posts (map f posts) st).
  eexists. eexists. eexists.
  split; [reflexivity|].
  split; [apply visible_posts_run|].
  split; [apply visible_posts_run|].
  split; [reflexivity|].
  change (getStorage mock_posts [] (setStorage mock_posts (map f posts) st))
    with (map f posts).
  fold posts.
  assert (Hother : forall p, Post.id p <> postId -> (In p (map f posts) <-> In p posts)).
  { intros p Hp. rewrite in_map_iff. split.
    - intros [q [Hq Hin]]. unfold f in Hq.
      destruct (String.eqb_spec (Post.id q) postId) as [Heq|Hne].
      + subst p. rewrite with_post_status_id in Hp. contradiction.
      + now subst q.
    - intros Hin. exists p. split; [|assumption]. unfold f.
      apply String.eqb_neq in Hp. now rewrite Hp. }
  split; [|split].
  - intros p Hin. apply filter_In in Hin. destruct Hin as [Hin _].
    apply filter_In in Hin. destruct Hin as [Hin Hact].
    apply in_map_iff in Hin. destruct Hin as [q [Hq Hin]]. unfold f in Hq.
    destruct (String.eqb_spec (Post.id q) postId) as [Heq|Hne].
    + subst p. discriminate Hact.
    + now subst q.
  - intros p Hin Hid. apply filter_In. split; [|reflexivity].
    apply in_map_iff. exists p. split; [|assumption].
    unfold f. rewrite Hid, String.eqb_refl. reflexivity.
  - intros p Hp. rewrite !filter_In, (Hother p Hp). tauto.
Qed.

Lemma restore_status (p : Post.t) :
  Post.status p = post_active ->
  with_post_status (with_post_status p post_reported) post_active = p.
Proof. destruct p; simpl; intros ->; reflexivity. Qed.

(** Reporting a post and then approving it gives back the post slice as it
    was, when the posts of that id were active to begin with; the public
    listing is then the one from before the report. *)
Theorem report_then_approve_restores (st : Storage) (postId : string)
    (attractionId : option string) :
  (forall p, In p (getStorage mock_posts [] st) -> Post.id p = postId ->
             Post.status p = post_active) ->
  exists st1 st2 listing,
    reportPost postId st = Some (ok true, st1) /\
    moderateContent postId approve st1 = Some (ok true, st2) /\
    getStorage mock_posts [] st2 = getStorage mock_posts [] st /\
    getPosts attractionId st = Some (ok listing, st) /\
    getPosts attractionId st2 = Some (ok listing, st2).
Proof.
  intros Hactive.
  set (posts := getStorage mock_posts [] st).
  assert (Hback :
    map (fun p => if String.eqb (Post.id p) postId
                  then with_post_status p post_active else p)
        (map (fun p => if String.eqb (Post.id p) postId
                       then with_post_status p post_reported else p) posts)
    = posts).
  { rewrite map_map. rewrite <- (map_id posts) at 2.
    apply map_ext_in. intros p Hin.
    destruct (String.eqb_spec (Post.id p) postId) as [Heq|Hne].
    - rewrite with_post_status_id.
      apply String.eqb_eq in Heq. rewrite Heq. apply String.eqb_eq in Heq.
      apply restore_status. now apply Hactive.
    - apply String.eqb_neq in Hne. now rewrite Hne. }
  set (reported := map (fun p => if String.eqb (Post.id p) postId
                                 then with_post_status p post_reported else p)
                      posts) in *.
  set (st1 := setStorage mock_posts reported st).
  exists st1.
  exists (setStorage mock_posts
            (map (fun p => if String.eqb (Post.id p) postId
                           then with_post_status p post_active else p) reported)
            st1).
  eexists.
  split; [reflexivity|].
  split; [reflexivity|].
  split; [exact Hback|].
  split; [apply visible_posts_run|].
  rewrite visible_posts_run. do 2 f_equal. f_equal. f_equal. f_equal.
  exact Hback.
Qed.

Lemma report_then_approve_restores_witness :
  let post :=
    Post.mk "post-123" "1" "u1" "Traveler User" "Lovely pandas." None None
            zero [] "2024-05-01T08:00:00.000Z" post_active in
  let st := setStorage mock_posts [post] empty_storage in
  exists st1 st2,
    reportPost "post-123" st = Some (ok true, st1) /\
    getPosts None st1 = Some (ok [], st1) /\
    moderateContent "post-123" approve st1 = Some (ok true, st2) /\
    getPosts None st2 = Some (ok [post], st2).
Proof.
  intros post st.
  destruct (report_then_approve_restores st "post-123" None)
    as [st1 [st2 [listing [Hr [Hm [_ [Hbefore Hafter]]]]]]].
  - intros p [<-|[]] _. reflexivity.
  - exists st1, st2. split; [exact Hr|].
    vm_compute in Hr. injection Hr as <-.
    vm_compute in Hbefore. injection Hbefore as <-.
    split; [reflexivity|]. split; [exact Hm | exact Hafter].
Defined.

(** After [moderateContent], whichever the action, the moderation queue
    holds no post of that id.  Deleting leaves no stored post of that id;
    approving puts every stored post of that id, made active, in the public
    listing.  Stored posts of other ids are the same before and after. *)
Theorem moderation_empties_queue (st : Storage) (id : string)
    (action : ModerationAction) :
  exists st1 queue visible,
    moderateContent id action st = Some (ok true, st1) /\
    getReportedContent st1 = Some (ok queue, st1) /\
    getPosts None st1 = Some (ok visible, st1) /\
    (forall p, In p queue -> Post.id p <> id) /\
    (action = delete ->
       forall p, In p (getStorage mock_posts [] st1) -> Post.id p <> id) /\
    (action = approve ->
       forall p, In p (getStorage mock_posts [] st) -> Post.id p = id ->
                 In (with_post_status p post_active) visible) /\
    (forall p, Post.id p <> id ->
       (In p (getStorage mock_posts [] st1) <-> In p (getStorage mock_posts [] st))).
Proof.
  set (posts := getStorage mock_posts [] st).
  set (g := fun p => if String.eqb (Post.id p) id
                     then with_post_status p post_active else p).
  set (posts1 := match action with
                 | delete => filter (fun p => negb (String.eqb (Post.id p) id)) posts
                 | approve => map g posts
                 end).
  exists (setStorage mock_posts posts1 st). eexists. eexists.
  split; [destruct action; reflexivity|].
  split; [reflexivity|].
  split; [apply visible_posts_run|].
  change (getStorage mock_posts [] (setStorage mock_posts posts1 st)) with posts1.
  assert (Hin1 : forall p, In p posts1 ->
                   (Post.id p <> id /\ In p posts) \/
                   (action = approve /\ Post.status p = post_active)).
  { intros p Hin. unfold posts1 in Hin. destruct action.
    - apply in_map_iff in Hin. destruct Hin as [q [Hq Hin]]. unfold g in Hq.
      destruct (String.eqb_spec (Post.id q) id) as [Heq|Hne].
      + right. subst p. auto.
      + left. subst q. auto.
    - apply filter_In in Hin. destruct Hin as [Hin Hne].
      apply negb_true_iff, String.eqb_neq in Hne. left. auto. }
  split; [|split; [|split]].
  - intros p Hin. apply filter_In in Hin. destruct Hin as [Hin Hrep].
    destruct (Hin1 p Hin) as [[Hne _]|[_ Hact]]; [assumption|].
    rewrite Hact in Hrep. discriminate.
  - intros -> p Hin. destruct (Hin1 p Hin) as [[Hne _]|[Habs _]];
      [assumption | discriminate].
  - intros -> p Hin Hid. rewrite filter_all by reflexivity.
    apply filter_In. split; [|reflexivity].
    apply in_map_iff. exists p. split; [|assumption].
    unfold g. rewrite Hid, String.eqb_refl. reflexivity.
  - intros p Hp. split.
    + intros Hin. destruct (Hin1 p Hin) as [[_ H]|[-> _]]; [assumption|].
      apply in_map_iff in Hin. destruct Hin as [q [Hq Hin]]. unfold g in Hq.
      destruct (String.eqb_spec (Post.id q) id) as [Heq|Hne].
      * subst p. rewrite with_post_status_id in Hp. contradiction.
      * now subst q.
    + intros Hin. unfold posts1. destruct action.
      * apply in_map_iff. exists p. split; [|assumption]. unfold g.
        apply String.eqb_neq in Hp. now rewrite Hp.
      * apply filter_In. split; [assumption|].
        now apply negb_true_iff, String.eqb_neq.
Qed.

(** No operation of the facade gives a post the status hidden: a store
    without hidden posts stays so under [createPost], [reportPost] and
    [moderateContent]. *)
Theorem post_operations_never_hide (st : Storage) :
  no_hidden st ->
  (forall postData now iso r st',
      createPost postData now iso st = Some (r, st') -> no_hidden st') /\
  (forall id r st', reportPost id st = Some (r, st') -> no_hidden st') /\
  (forall id action r st',
      moderateContent id action st = Some (r, st') -> no_hidden st').
Proof.
  intros Hno. split; [|split].
  - intros postData now iso r st'. unfold createPost, bind, read, write, ret, non_null.
    destruct (PartialPost.attractionId postData); [|discriminate].
    destruct (PartialPost.userId postData); [|discriminate].
    destruct (PartialPost.username postData); [|discriminate].
    destruct (PartialPost.content postData); [|discriminate].
    intros [= _ <-] p [<-|Hin]; [discriminate | now apply Hno].
  - intros id r st'. unfold reportPost, bind, read, write, ret.
    intros [= _ <-] p Hin.
    change (In p (map (fun p => if String.eqb (Post.id p) id
                                then with_post_status p post_reported else p)
                      (getStorage mock_posts [] st))) in Hin.
    apply in_map_iff in Hin. destruct Hin as [q [<- Hin]].
    destruct (String.eqb (Post.id q) id); [discriminate | now apply Hno].
  - intros id action r st'. unfold moderateContent, bind, read, write, ret.
    intros [= _ <-] p Hin.
    unfold getStorage at 1 in Hin. unfold setStorage in Hin. simpl in Hin.
    destruct action.
    + apply in_map_iff in Hin. destruct Hin as [q [<- Hin]].
      destruct (String.eqb (Post.id q) id); [discriminate | now apply Hno].
    + apply filter_In in Hin. now apply Hno.
Qed.

Lemma post_operations_never_hide_witness :
  exists st',
    reportPost "post-123"
      (setStorage mock_posts
         [Post.mk "post-123" "1" "u1" "Traveler User" "Lovely pandas." None None
                  zero [] "2024-05-01T08:00:00.000Z" post_active]
         empty_storage) = Some (ok true, st') /\
    no_hidden st'.
Proof.
  eexists. split; [vm_compute; reflexivity|].
  refine (proj1 (proj2 (post_operations_never_hide
                          (setStorage mock_posts
                             [Post.mk "post-123" "1" "u1" "Traveler User"
                                      "Lovely pandas." None None zero []
                                      "2024-05-01T08:00:00.000Z" post_active]
                             empty_storage) _))
                "post-123" (ok true) _ eq_refl).
  intros p [<-|[]]. discriminate.
Defined.




(** [createPost] on an argument that carries attraction, author, username
    and content succeeds with a post that is active, has no like and no
    comment, and is the first post of the public listing, unfiltered or
    filtered by the post's own attraction. *)
Theorem created_post_heads_listing (st : Storage) (postData : PartialPost.t)
    (now : Z) (iso attractionId userId username content : string) :
  PartialPost.attractionId postData = Some attractionId ->
  PartialPost.userId postData = Some userId ->
  PartialPost.username postData = Some username ->
  PartialPost.content postData = Some content ->
  exists st1 rest rest',
    let created :=
      Post.mk ("post-" ++ show_int now) attractionId userId username content
              (PartialPost.rating postData) (PartialPost.imageUrl postData)
              zero [] iso post_active in
    createPost postData now iso st = Some (ok created, st1) /\
    getPosts None st1 = Some (ok (created :: rest), st1) /\
    getPosts None st = Some (ok rest, st) /\
    getPosts (Some attractionId) st1 = Some (ok (created :: rest'), st1) /\
    getPosts (Some attractionId) st = Some (ok rest', st).
Proof.
  intros Ha Hu Hn Hc.
  set (vis := filter (fun p => PostStatus_eqb (Post.status p) post_active)
                     (getStorage mock_posts [] st)).
  eexists.
  exists (filter (fun _ => true) vis).
  exists (filter (fun p => if truthy_string attractionId
                           then String.eqb (Post.attractionId p) attractionId
                           else true) vis).
  cbv zeta.
  split.
  { unfold createPost, bind, read, write, ret, non_null.
    rewrite Ha, Hu, Hn, Hc. reflexivity. }
  rewrite !visible_posts_run. fold vis.
  unfold getStorage at 1 3. unfold setStorage. simpl.
  fold vis.
  destruct (truthy_string attractionId); simpl;
    rewrite ?String.eqb_refl; repeat split; reflexivity.
Qed.

Lemma created_post_heads_listing_witness :
  exists st1 created,
    createPost (PartialPost.mk None (Some "1") (Some "u1") (Some "Traveler User")
                  (Some "Lovely pandas.") None (Some "") None None None None)
               1700000000000 "2023-11-14T22:13:20.000Z" empty_storage =
      Some (ok created, st1) /\
    getPosts (Some "1") st1 = Some (ok [created], st1) /\
    Post.status created = post_active.
Proof.
  destruct (created_post_heads_listing empty_storage
              (PartialPost.mk None (Some "1") (Some "u1") (Some "Traveler User")
                 (Some "Lovely pandas.") None (Some "") None None None None)
              1700000000000 "2023-11-14T22:13:20.000Z" "1" "u1" "Traveler User"
              "Lovely pandas." eq_refl eq_refl eq_refl eq_refl)
    as [st1 [rest [rest' [Hc [_ [_ [Hl Hl0]]]]]]].
  vm_compute in Hl0. injection Hl0 as <-.
  eexists. eexists. split; [exact Hc|]. split; [exact Hl | reflexivity].
Defined.

(** ** Users: registration, login and approval *)

Lemma register_same_email_refused_witness :
  register (User.mk_partial None (Some "Someone") (Some "user@test.com")
                            (Some TRAVELER) None None None)
           "pw" 1700000000000 empty_storage =
    Some (failure "Email already exists", empty_storage).
Proof.
  apply (register_same_email_refused empty_storage
           (User.mk_partial None (Some "Someone") (Some "user@test.com")
                            (Some TRAVELER) None None None)
           "pw" 1700000000000 "user@test.com" eq_refl).
  exists (User.mk "u1" "Traveler User" "user@test.com" TRAVELER None user_active None).
  split; [|reflexivity]. right. right. left. reflexivity.
Defined.

Lemma login_found (toLowerCase : string -> string) (st : Storage)
    (email password : string) (u : User.t) :
  find (fun v => String.eqb (toLowerCase (User.email v)) (toLowerCase email))
       (getStorage mock_users INITIAL_USERS st) = Some u ->
  login toLowerCase email password st =
    Some (ok (with_token u (Some ("mock-jwt-" ++ User.id u))), st).
Proof.
  intros Hfind. unfold login, bind, read, ret. now rewrite Hfind.
Qed.

(** A user registered under an email that no stored user has, whatever the
    case of the letters, can log in under any spelling of that email; [login]
    answers with the stored user and the token "mock-jwt-" followed by the
    user's id, not the token "mock-jwt-new" that [register] returned. *)
Theorem register_then_login (toLowerCase : string -> string) (st : Storage)
    (userData : User.partial) (password password' : string) (now : Z)
    (e : string) :
  User.p_email userData = Some e ->
  (forall u, In u (getStorage mock_users INITIAL_USERS st) ->
             toLowerCase (User.email u) <> toLowerCase e) ->
  exists u st1,
    register userData password now st = Some (ok u, st1) /\
    User.token u = Some "mock-jwt-new" /\
    User.id u = "u-" ++ show_int now /\
    forall e', toLowerCase e' = toLowerCase e ->
      login toLowerCase e' password' st1 =
        Some (ok (User.mk (User.id u) (User.username u) (User.email u)
                          (User.role u) (Some ("mock-jwt-u-" ++ show_int now))
                          (User.status u) (User.qualificationUrl u)), st1).
Proof.
  intros He Hfresh.
  destruct (register_fresh st userData password now e He)
    as [u [Hrun [Hid [_ [Hemail [_ [Htoken _]]]]]]].
  { intros v Hv Heq. apply (Hfresh v Hv). now rewrite Heq. }
  exists u. eexists. split; [exact Hrun|]. split; [exact Htoken|].
  split; [exact Hid|].
  intros e' He'.
  rewrite (login_found toLowerCase _ e' password' u).
  { unfold with_token. rewrite Hid. reflexivity. }
  apply find_first_such.
  exists (getStorage mock_users INITIAL_USERS st), [].
  split; [reflexivity|]. split.
  - apply String.eqb_eq. now rewrite Hemail, He'.
  - intros v Hv Heq. apply String.eqb_eq in Heq. rewrite He' in Heq.
    now apply (Hfresh v Hv).
Qed.

Lemma register_then_login_witness :
  exists u st1,
    register (User.mk_partial None None (Some "Li.Wei@Example.com") None
                              None None None)
             "secret" 1700000000000 empty_storage = Some (ok u, st1) /\
    option_map User.token
      (match login toLowerCase_ascii "li.wei@example.com" "other" st1 with
       | Some (r, _) => data r
       | None => None
       end) = Some (Some "mock-jwt-u-1700000000000").
Proof.
  destruct (register_then_login toLowerCase_ascii empty_storage
              (User.mk_partial None None (Some "Li.Wei@Example.com") None
                               None None None)
              "secret" "other" 1700000000000 "Li.Wei@Example.com" eq_refl)
    as [u [st1 [Hrun [_ [_ Hlogin]]]]].
  - intros u [<-|[<-|[<-|[]]]]; vm_compute; discriminate.
  - exists u, st1. split; [exact Hrun|].
    rewrite (Hlogin "li.wei@example.com" eq_refl). reflexivity.
Defined.

Lemma NoDup_snoc {A} (l : list A) (x : A) :
  NoDup l -> ~ In x l -> NoDup (l ++ [x]).
Proof.
  induction l as [|a l IH]; simpl; intros Hnd Hx.
  - constructor; [intros [] | constructor].
  - inversion Hnd as [|? ? Ha Hl]; subst. constructor.
    + rewrite in_app_iff. simpl. intros [H|[H|[]]]; [auto | subst; auto].
    + apply IH; auto.
Qed.

(** [register] keeps the stored emails pairwise distinct (as [===] tells
    them apart) and never removes or alters a stored user: the slice after
    is the slice before, followed by at most the new user. *)
Theorem register_keeps_emails_distinct (st : Storage) (userData : User.partial)
    (password : string) (now : Z) (r : ApiResponse User.t) (st' : Storage) :
  NoDup (emails (getStorage mock_users INITIAL_USERS st)) ->
  register userData password now st = Some (r, st') ->
  NoDup (emails (getStorage mock_users INITIAL_USERS st')) /\
  exists added,
    getStorage mock_users INITIAL_USERS st' =
      (getStorage mock_users INITIAL_USERS st ++ added)%list /\
    (List.length added <= 1)%nat.
Proof.
  intros Hnd. unfold register, bind, read, write, ret, non_null.
  set (users := getStorage mock_users INITIAL_USERS st) in *.
  destruct (find _ users) as [taken|] eqn:Hfind.
  - intros [= _ <-]. split; [exact Hnd|]. exists [].
    split; [now rewrite app_nil_r | simpl; lia].
  - destruct (User.p_email userData) as [e|]; [|discriminate].
    intros [= _ <-]. unfold getStorage, setStorage. simpl.
    split.
    + unfold emails. rewrite map_app. simpl.
      apply NoDup_snoc; [exact Hnd|].
      intros Hin. apply in_map_iff in Hin. destruct Hin as [v [Hv Hin]].
      rewrite find_none_all in Hfind. specialize (Hfind v Hin). simpl in Hfind.
      apply String.eqb_neq in Hfind. contradiction.
    + eexists. split; [reflexivity | simpl; lia].
Qed.

Lemma register_keeps_emails_distinct_witness :
  exists r st',
    register (User.mk_partial None None (Some "new@test.com") None None None None)
             "pw" 1700000000000 empty_storage = Some (r, st') /\
    NoDup (emails (getStorage mock_users INITIAL_USERS st')).
Proof.
  eexists. eexists. split; [vm_compute; reflexivity|].
  refine (proj1 (register_keeps_emails_distinct empty_storage
                   (User.mk_partial None None (Some "new@test.com") None None
                                    None None)
                   "pw" 1700000000000 _ _ _ eq_refl)).
  repeat constructor; simpl; intuition discriminate.
Defined.

Lemma pending_after_decision (id : string) (status : UserStatus)
    (users : list User.t) :
  status <> user_pending ->
  filter (fun u => UserRole_eqb (User.role u) MERCHANT &&
                   match User.status u with
                   | user_pending => true
                   | _ => false
                   end)
         (map (fun u => if String.eqb (User.id u) id
                        then with_user_status u status else u) users) =
  filter (fun u => negb (String.eqb (User.id u) id))
         (filter (fun u => UserRole_eqb (User.role u) MERCHANT &&
                           match User.status u with
                           | user_pending => true
                           | _ => false
                           end) users).
Proof.
  intros Hs. induction users as [|u users IH]; [reflexivity|].
  simpl. destruct (String.eqb (User.id u) id) eqn:Hid.
  - simpl. replace (match status with user_pending => true | _ => false end)
      with false by (destruct status; congruence).
    rewrite andb_false_r.
    destruct (UserRole_eqb (User.role u) MERCHANT &&
              match User.status u with user_pending => true | _ => false end);
      simpl; rewrite ?Hid; simpl; exact IH.
  - destruct (UserRole_eqb (User.role u) MERCHANT &&
              match User.status u with user_pending => true | _ => false end);
      simpl; rewrite ?Hid; simpl; now rewrite IH.
Qed.

(** A decision on a user, active or rejected, takes every user of that id
    out of the list of pending merchants and leaves the rest of the list as
    it was, in order. *)
Theorem decision_clears_pending (st : Storage) (id : string)
    (status : UserStatus) :
  status <> user_pending ->
  exists st1 before,
    getPendingMerchants st = Some (ok before, st) /\
    updateUserStatus id status st = Some (ok true, st1) /\
    getPendingMerchants st1 =
      Some (ok (filter (fun u => negb (String.eqb (User.id u) id)) before), st1).
Proof.
  intros Hs.
  unfold getPendingMerchants, updateUserStatus, bind, read, write, ret.
  eexists. eexists.
  split; [reflexivity|]. split; [reflexivity|].
  do 2 f_equal. f_equal.
  unfold getStorage at 1. unfold setStorage. simpl.
  now apply pending_after_decision.
Qed.

Lemma decision_clears_pending_witness :
  exists u st1 st2,
    register (User.mk_partial None None (Some "shop@test.com") (Some MERCHANT)
                              None None None)
             "pw" 1700000000000 empty_storage = Some (ok u, st1) /\
    getPendingMerchants st1 = Some (ok [u], st1) /\
    updateUserStatus "u-1700000000000" user_active st1 = Some (ok true, st2) /\
    getPendingMerchants st2 = Some (ok [], st2).
Proof.
  eexists. eexists.
  destruct (decision_clears_pending
              (setStorage mock_users
                 (INITIAL_USERS ++
                  [User.mk "u-1700000000000" "shop" "shop@test.com" MERCHANT
                           (Some "mock-jwt-new") user_pending None])%list
                 empty_storage)
              "u-1700000000000" user_active)
    as [st2 [before [Hb [Hu Ha]]]]; [discriminate|].
  exists st2. split; [vm_compute; reflexivity|].
  split; [vm_compute; reflexivity|]. split; [exact Hu|].
  vm_compute in Hb. injection Hb as <-. exact Ha.
Defined.

(** ** Attractions: deleting and updating *)

Lemma find_filter_keep {A} (p q : A -> bool) (l : list A) :
  (forall x, p x = true -> q x = true) -> find p (filter q l) = find p l.
Proof.
  intros Hpq. induction l as [|a l IH]; simpl; [reflexivity|].
  destruct (q a) eqn:Hq; simpl.
  - now rewrite IH.
  - destruct (p a) eqn:Hp; [|exact IH].
    rewrite (Hpq a Hp) in Hq. discriminate.
Qed.

Lemma find_filter_none {A} (p q : A -> bool) (l : list A) :
  (forall x, q x = true -> p x = false) -> find p (filter q l) = None.
Proof.
  intros Hqp. apply find_none_all. intros y Hy.
  apply filter_In in Hy. now apply Hqp.
Qed.

(** After [deleteAttraction] a lookup of that id answers "Not found",
    lookups of any other id answer as before, and nothing is cascaded: the
    user, post, product and order keys are untouched, so the products that
    name the deleted attraction are still listed under its id. *)
Theorem delete_then_lookup (st : Storage) (id : string) :
  exists st1,
    deleteAttraction id st = Some (ok true, st1) /\
    getAttractionById id st1 = Some (failure "Not found", st1) /\
    (forall id' r, id' <> id ->
       getAttractionById id' st = Some (r, st) ->
       getAttractionById id' st1 = Some (r, st1)) /\
    users_item st1 = users_item st /\ posts_item st1 = posts_item st /\
    products_item st1 = products_item st /\ orders_item st1 = orders_item st /\
    (forall merchantId attractionId r,
       getProducts merchantId attractionId st = Some (r, st) ->
       getProducts merchantId attractionId st1 = Some (r, st1)).
Proof.
  unfold deleteAttraction, getAttractionById, bind, read, write, ret.
  eexists. split; [reflexivity|].
  unfold getStorage at 1. unfold setStorage. simpl.
  split.
  { rewrite find_filter_none; [reflexivity|].
    intros a Ha. now apply negb_true_iff in Ha. }
  split.
  { intros id' r Hne. unfold getStorage at 2. simpl.
    rewrite find_filter_keep.
    - destruct (find _ _); intros [= <-]; reflexivity.
    - intros a Ha. apply String.eqb_eq in Ha.
      apply negb_true_iff, String.eqb_neq. congruence. }
  repeat (split; [reflexivity|]).
  intros merchantId attractionId r.
  unfold getProducts, bind, read, ret. intros [= <-]. reflexivity.
Qed.

Lemma findIndex_none {A} (p : A -> bool) (l : list A) :
  (forall x, In x l -> p x = false) -> findIndex p l = None.
Proof.
  induction l as [|a l IH]; simpl; intros H; [reflexivity|].
  rewrite (H a (or_introl eq_refl)), IH; auto.
Qed.

Lemma findIndex_first {A} (p : A -> bool) (pre post : list A) (x : A) :
  (forall y, In y pre -> p y = false) -> p x = true ->
  findIndex p (pre ++ x :: post) = Some (List.length pre).
Proof.
  induction pre as [|a pre IH]; simpl; intros Hpre Hx.
  - now rewrite Hx.
  - rewrite (Hpre a (or_introl eq_refl)), IH; auto.
Qed.

Lemma nth_error_middle {A} (pre post : list A) (x : A) :
  nth_error (pre ++ x :: post) (List.length pre) = Some x.
Proof. induction pre; simpl; auto. Qed.

Lemma set_index_middle {A} (pre post : list A) (x v : A) :
  set_index (pre ++ x :: post) (List.length pre) v = (pre ++ v :: post)%list.
Proof. induction pre as [|a pre IH]; simpl; [reflexivity | now rewrite IH]. Qed.

(** [updateAttraction] on an id that no stored attraction has answers
    "Attraction not found" and writes nothing. *)
Theorem update_missing_attraction (st : Storage) (id : string)
    (updates : Attraction.partial) :
  (forall a, In a (getStorage mock_attractions MOCK_ATTRACTIONS st) ->
             Attraction.id a <> id) ->
  updateAttraction id updates st = Some (failure "Attraction not found", st).
Proof.
  intros Hnone. unfold updateAttraction, bind, read, ret.
  rewrite findIndex_none; [reflexivity|].
  intros a Ha. apply String.eqb_neq. now apply Hnone.
Qed.

Lemma update_missing_attraction_witness :
  updateAttraction "no-such-id"
    (Attraction.mk_partial None (Some "Renamed") None None None None None None
                           None None None None None)
    empty_storage = Some (failure "Attraction not found", empty_storage).
Proof.
  apply update_missing_attraction.
  intros a [<-|[<-|[<-|[<-|[<-|[]]]]]]; vm_compute; discriminate.
Defined.

(** [updateAttraction] replaces the first stored attraction of that id by
    its merge with the update and leaves every other position of the slice,
    later attractions of the same id included, as it was; when the update
    carries no id, a lookup of the id then answers with the merged record. *)
Theorem update_changes_first_match (st : Storage) (id : string)
    (updates : Attraction.partial) (pre post : list Attraction.t)
    (X : Attraction.t) :
  getStorage mock_attractions MOCK_ATTRACTIONS st = (pre ++ X :: post)%list ->
  Attraction.id X = id ->
  (forall a, In a pre -> Attraction.id a <> id) ->
  exists st1,
    updateAttraction id updates st =
      Some (ok (merge_attraction X updates), st1) /\
    getStorage mock_attractions MOCK_ATTRACTIONS st1 =
      (pre ++ merge_attraction X updates :: post)%list /\
    (Attraction.p_id updates = None ->
       getAttractionById id st1 = Some (ok (merge_attraction X updates), st1)).
Proof.
  intros Hl HX Hpre.
  assert (Hpre' : forall a, In a pre -> String.eqb (Attraction.id a) id = false).
  { intros a Ha. apply String.eqb_neq. now apply Hpre. }
  unfold updateAttraction, getAttractionById, bind, read, write, ret, non_null.
  rewrite Hl, findIndex_first, nth_error_middle, set_index_middle;
    [|exact Hpre' | now apply String.eqb_eq].
  eexists. split; [reflexivity|].
  unfold getStorage at 1 2. unfold setStorage. simpl.
  split; [reflexivity|].
  intros Hid.
  assert (Hfind : find (fun a => String.eqb (Attraction.id a) id)
                       (pre ++ merge_attraction X updates :: post) =
                  Some (merge_attraction X updates)).
  { apply find_first_such. exists pre, post. split; [reflexivity|].
    split.
    - simpl. rewrite Hid. simpl. now apply String.eqb_eq.
    - intros y Hy. rewrite (Hpre' y Hy). discriminate. }
  now rewrite Hfind.
Qed.

Lemma update_changes_first_match_witness :
  exists st1 updated,
    updateAttraction "1"
      (Attraction.mk_partial None (Some "Panda Base") None None None None None
                             None None None None None None)
      empty_storage = Some (ok updated, st1) /\
    Attraction.title updated = "Panda Base" /\
    getAttractionById "1" st1 = Some (ok updated, st1) /\
    getStorage mock_attractions MOCK_ATTRACTIONS st1 =
      updated :: tl MOCK_ATTRACTIONS.
Proof.
  destruct (update_changes_first_match empty_storage "1"
              (Attraction.mk_partial None (Some "Panda Base") None None None None
                                     None None None None None None None)
              [] (tl MOCK_ATTRACTIONS)
              (hd (Attraction.mk "" "" "" "" "" None None None [] "" None None None)
                  MOCK_ATTRACTIONS)
              eq_refl eq_refl)
    as [st1 [Hrun [Hslice Hget]]].
  - intros a [].
  - eexists. eexists. split; [exact Hrun|]. split; [reflexivity|].
    split; [exact (Hget eq_refl) | exact Hslice].
Defined.

(** ** Products *)

Lemma createProduct_run (st : Storage) (product : Product.partial)
    (now now' : Z) (merchantId name description : string)
    (price stock : number) :
  Product.p_merchantId product = Some merchantId ->
  Product.p_name product = Some name ->
  Product.p_description product = Some description ->
  Product.p_price product = Some price ->
  Product.p_stock product = Some stock ->
  exists created,
    createProduct product now now' st =
      Some (ok created,
            setStorage mock_products
              (getStorage mock_products MOCK_PRODUCTS st ++ [created])%list st) /\
    Product.id created = "prod-" ++ show_int now /\
    Product.attractionId created = Product.p_attractionId product /\
    Product.attractionName created =
      (if truthy (Product.p_attractionId product)
       then option_map Attraction.title
              (find (fun a => strict_eq (Some (Attraction.id a))
                                        (Product.p_attractionId product))
                    (getStorage mock_attractions MOCK_ATTRACTIONS st))
       else None).
Proof.
  intros Hm Hn Hd Hp Hs.
  unfold createProduct, bind, read, write, ret, non_null.
  rewrite Hm, Hn, Hd, Hp, Hs.
  destruct (truthy (Product.p_attractionId product)).
  - destruct (find _ _); eexists; (split; [reflexivity|]); repeat split.
  - eexists. split; [reflexivity|]. repeat split.
Qed.

Lemma find_snoc {A} (p : A -> bool) (l : list A) (x : A) :
  find p (l ++ [x]) =
    match find p l with
    | Some y => Some y
    | None => if p x then Some x else None
    end.
Proof.
  induction l as [|a l IH]; simpl; [reflexivity|].
  destruct (p a); [reflexivity | exact IH].
Qed.

(** A created product is put at the end of the slice, so [getProductById]
    on its id answers with it only when no stored product already has that
    id; when one has (two products created within the same millisecond), the
    lookup answers with the older product and the new one cannot be reached
    by id. *)
Theorem created_product_lookup (st : Storage) (product : Product.partial)
    (now now' : Z) (merchantId name description : string)
    (price stock : number) :
  let products := getStorage mock_products MOCK_PRODUCTS st in
  Product.p_merchantId product = Some merchantId ->
  Product.p_name product = Some name ->
  Product.p_description product = Some description ->
  Product.p_price product = Some price ->
  Product.p_stock product = Some stock ->
  exists created st1,
    createProduct product now now' st = Some (ok created, st1) /\
    Product.id created = "prod-" ++ show_int now /\
    getStorage mock_products MOCK_PRODUCTS st1 = (products ++ [created])%list /\
    ((forall p, In p products -> Product.id p <> Product.id created) ->
       getProductById (Product.id created) st1 = Some (ok created, st1)) /\
    (forall older,
       first_such (fun p => Product.id p = Product.id created) products older ->
       getProductById (Product.id created) st1 = Some (ok older, st1)).
Proof.
  intros products Hm Hn Hd Hp Hs.
  destruct (createProduct_run st product now now' _ _ _ _ _ Hm Hn Hd Hp Hs)
    as [created [Hrun [Hid _]]].
  exists created.
  exists (setStorage mock_products (products ++ [created])%list st).
  split; [exact Hrun|]. split; [exact Hid|].
  split; [reflexivity|].
  assert (Hget : forall r,
            find (fun p => String.eqb (Product.id p) (Product.id created))
                 (products ++ [created]) = Some r ->
            getProductById (Product.id created)
              (setStorage mock_products (products ++ [created])%list st) =
            Some (ok r, setStorage mock_products (products ++ [created])%list st)).
  { intros r Hfind. unfold getProductById, bind, read, ret.
    change (getStorage mock_products MOCK_PRODUCTS
              (setStorage mock_products (products ++ [created])%list st))
      with (products ++ [created])%list.
    now rewrite Hfind. }
  split.
  - intros Hfresh. apply Hget. rewrite find_snoc.
    rewrite (proj2 (find_none_all _ _)).
    + now rewrite String.eqb_refl.
    + intros y Hy. apply String.eqb_neq. now apply Hfresh.
  - intros older [pre [post [Hl [Ho Hpre]]]]. apply Hget. rewrite find_snoc.
    assert (Hsome : find (fun p => String.eqb (Product.id p) (Product.id created))
                         products = Some older).
    { apply find_first_such. exists pre, post. split; [exact Hl|].
      split; [now apply String.eqb_eq|].
      intros y Hy Heq. apply (Hpre y Hy). now apply String.eqb_eq. }
    now rewrite Hsome.
Qed.

Lemma created_product_lookup_witness :
  let tea :=
    Product.mk_partial None (Some "m1") None None None (Some "Longjing Tea")
      (Some "Green tea.") (Some (QArith_base.Qmake 30 1))
      (Some (QArith_base.Qmake 10 1)) None in
  let fan :=
    Product.mk_partial None (Some "m1") None None None (Some "Silk Fan")
      (Some "A folding fan.") (Some (QArith_base.Qmake 8 1))
      (Some (QArith_base.Qmake 5 1)) None in
  exists first st1 second st2,
    createProduct tea 1700000000000 1700000000000 empty_storage =
      Some (ok first, st1) /\
    getProductById "prod-1700000000000" st1 = Some (ok first, st1) /\
    createProduct fan 1700000000000 1700000000000 st1 = Some (ok second, st2) /\
    Product.name second = "Silk Fan" /\
    getProductById "prod-1700000000000" st2 = Some (ok first, st2).
Proof.
  intros tea fan.
  destruct (created_product_lookup empty_storage tea 1700000000000 1700000000000
              "m1" "Longjing Tea" "Green tea." (QArith_base.Qmake 30 1)
              (QArith_base.Qmake 10 1) eq_refl eq_refl eq_refl eq_refl eq_refl)
    as [first [st1 [Hc1 [Hid1 [Hs1 [Hfresh _]]]]]].
  destruct (created_product_lookup st1 fan 1700000000000 1700000000000
              "m1" "Silk Fan" "A folding fan." (QArith_base.Qmake 8 1)
              (QArith_base.Qmake 5 1) eq_refl eq_refl eq_refl eq_refl eq_refl)
    as [second [st2 [Hc2 [Hid2 [_ [_ Holder]]]]]].
  exists first, st1, second, st2.
  assert (Hlit : "prod-" ++ show_int 1700000000000 = "prod-1700000000000")
    by reflexivity.
  rewrite Hlit in Hid1, Hid2.
  split; [exact Hc1|].
  split.
  { rewrite <- Hid1. apply Hfresh. rewrite Hid1.
    intros p [<-|[<-|[]]]; vm_compute; discriminate. }
  split; [exact Hc2|].
  split.
  { vm_compute in Hc1. injection Hc1 as <- <-.
    vm_compute in Hc2. injection Hc2 as <- _. reflexivity. }
  rewrite <- Hid2. apply Holder. rewrite Hs1.
  exists MOCK_PRODUCTS, []. split; [reflexivity|].
  split; [congruence|].
  rewrite Hid2. intros p [<-|[<-|[]]]; vm_compute; discriminate.
Defined.

(** A product created without attraction id, with the empty string for it,
    or with an id that no stored attraction has, is still created; it keeps
    the id it was given and has no attraction name. *)
Theorem product_without_resolved_attraction (st : Storage)
    (product : Product.partial) (now now' : Z)
    (merchantId name description : string) (price stock : number) :
  Product.p_merchantId product = Some merchantId ->
  Product.p_name product = Some name ->
  Product.p_description product = Some description ->
  Product.p_price product = Some price ->
  Product.p_stock product = Some stock ->
  (Product.p_attractionId product = None \/
   Product.p_attractionId product = Some "" \/
   exists x, Product.p_attractionId product = Some x /\
             forall a, In a (getStorage mock_attractions MOCK_ATTRACTIONS st) ->
                       Attraction.id a <> x) ->
  exists created st1,
    createProduct product now now' st = Some (ok created, st1) /\
    Product.attractionId created = Product.p_attractionId product /\
    Product.attractionName created = None /\
    In created (getStorage mock_products MOCK_PRODUCTS st1).
Proof.
  intros Hm Hn Hd Hp Hs Hcase.
  destruct (createProduct_run st product now now' _ _ _ _ _ Hm Hn Hd Hp Hs)
    as [created [Hrun [_ [Hattr Hname]]]].
  exists created. eexists. split; [exact Hrun|]. split; [exact Hattr|].
  split.
  - rewrite Hname. destruct Hcase as [-> | [-> | [x [-> Hnone]]]];
      [reflexivity | reflexivity |].
    destruct (truthy (Some x)); [|reflexivity].
    rewrite (proj2 (find_none_all _ _)); [reflexivity|].
    intros a Ha. simpl. apply String.eqb_neq. now apply Hnone.
  - unfold getStorage, setStorage. simpl. apply in_or_app. right. now left.
Qed.

Lemma product_without_resolved_attraction_witness :
  exists created st1,
    createProduct
      (Product.mk_partial None (Some "m1") None (Some "999") None
         (Some "Postcard") (Some "A postcard.") (Some (QArith_base.Qmake 1 1))
         (Some (QArith_base.Qmake 20 1)) None)
      1700000000000 1700000000001 empty_storage = Some (ok created, st1) /\
    Product.attractionId created = Some "999" /\
    Product.attractionName created = None.
Proof.
  destruct (product_without_resolved_attraction empty_storage
              (Product.mk_partial None (Some "m1") None (Some "999") None
                 (Some "Postcard") (Some "A postcard.")
                 (Some (QArith_base.Qmake 1 1)) (Some (QArith_base.Qmake 20 1))
                 None)
              1700000000000 1700000000001 "m1" "Postcard" "A postcard."
              (QArith_base.Qmake 1 1) (QArith_base.Qmake 20 1)
              eq_refl eq_refl eq_refl eq_refl eq_refl)
    as [created [st1 [Hrun [Hattr [Hname _]]]]].
  - right. right. exists "999". split; [reflexivity|].
    intros a [<-|[<-|[<-|[<-|[<-|[]]]]]]; vm_compute; discriminate.
  - exists created, st1. auto.
Defined.

(** [getProducts] returns, in the order of the slice, exactly the products
    that satisfy each filter that is a non-empty string: the merchant id
    equal to the first, the attraction id equal to the second.  It never
    writes. *)
Theorem getProducts_filters (st : Storage) (merchantId attractionId : option string) :
  exists l,
    getProducts merchantId attractionId st = Some (ok l, st) /\
    (forall p, In p l <->
       In p (getStorage mock_products MOCK_PRODUCTS st) /\
       (forall m, merchantId = Some m -> m <> "" -> Product.merchantId p = m) /\
       (forall a, attractionId = Some a -> a <> "" ->
                  Product.attractionId p = Some a)) /\
    (merchantId = None \/ merchantId = Some "" ->
     attractionId = None \/ attractionId = Some "" ->
     l = getStorage mock_products MOCK_PRODUCTS st).
Proof.
  unfold getProducts, bind, read, ret. cbv zeta.
  set (products := getStorage mock_products MOCK_PRODUCTS st).
  eexists. split; [reflexivity|]. split.
  - intros p.
    destruct merchantId as [m|]; [destruct (String.eqb_spec m "") as [->|Hm]|];
    (destruct attractionId as [a|]; [destruct (String.eqb_spec a "") as [->|Ha]|]);
    unfold truthy, truthy_string; simpl;
    try (apply String.eqb_neq in Hm; rewrite Hm; apply String.eqb_neq in Hm);
    try (apply String.eqb_neq in Ha; rewrite Ha; apply String.eqb_neq in Ha);
    simpl; rewrite ?filter_In, ?String.eqb_eq, ?strict_eq_some;
    (split; [intros H; repeat split; try tauto;
             intros x Hx; inversion Hx; subst; tauto
            | intros [Hin [H1 H2]]; repeat split; auto]).
  - intros [->| ->] [->| ->]; reflexivity.
Qed.

(** ** Orders *)

Lemma sold_by_spec (m : string) (o : Order.t) :
  existsb (fun i => strict_eq (Some (Product.merchantId (CartItem.product i)))
                              (Some m))
          (Order.items o) = true <-> sold_by m o.
Proof.
  unfold sold_by. rewrite existsb_exists.
  split; intros [i [Hin Hi]]; exists i; (split; [assumption|]).
  - now apply String.eqb_eq in Hi.
  - simpl. now apply String.eqb_eq.
Qed.

(** [getOrders] returns, in the order of the slice, exactly the orders that
    satisfy each filter that is a non-empty string: the purchaser equal to
    the first, and for the second some line item sold by that merchant.  It
    never writes. *)
Theorem getOrders_filters (st : Storage) (userId merchantId : option string) :
  exists l,
    getOrders userId merchantId st = Some (ok l, st) /\
    (forall o, In o l <->
       In o (getStorage mock_orders [] st) /\
       (forall u, userId = Some u -> u <> "" -> Order.userId o = u) /\
       (forall m, merchantId = Some m -> m <> "" -> sold_by m o)) /\
    (userId = None \/ userId = Some "" ->
     merchantId = None \/ merchantId = Some "" ->
     l = getStorage mock_orders [] st).
Proof.
  unfold getOrders, bind, read, ret. cbv zeta.
  set (orders := getStorage mock_orders [] st).
  eexists. split; [reflexivity|]. split.
  - intros o.
    destruct userId as [u|]; [destruct (String.eqb_spec u "") as [->|Hu]|];
    (destruct merchantId as [m|]; [destruct (String.eqb_spec m "") as [->|Hm]|]);
    unfold truthy, truthy_string;
    try (apply String.eqb_neq in Hu; rewrite Hu; apply String.eqb_neq in Hu);
    try (apply String.eqb_neq in Hm; rewrite Hm; apply String.eqb_neq in Hm);
    cbn [negb String.eqb]; rewrite ?filter_In, ?sold_by_spec;
    cbn [strict_eq]; rewrite ?String.eqb_eq;
    (split; [intros H; repeat split; try tauto;
             intros x Hx; inversion Hx; subst; tauto
            | intros [Hin [H1 H2]]; repeat split; auto]).
  - intros [->| ->] [->| ->]; reflexivity.
Qed.

Lemma update_order_status_missing_witness :
  updateOrderStatus "ord-2" order_shipped (Some "TRACK1") pending_order_storage =
    Some (failure "Order not found", pending_order_storage).
Proof.
  apply update_order_status_missing.
  intros o [<-|[]]. vm_compute. discriminate.
Defined.

(** [createOrder] on an argument that carries purchaser, items and total
    puts a pending order without tracking number at the head of the slice,
    and it is listed first for its purchaser.  Shipping it by its id answers
    with that order, shipped under the given number, when no stored order
    already had the id; when one had, the answer is the last such stored
    order instead, and the new order is restamped along with it. *)
Theorem created_order_then_shipped (st : Storage) (orderData : PartialOrder.t)
    (now : Z) (iso userId tracking : string) (items : list CartItem.t)
    (total : number) :
  let orders := getStorage mock_orders [] st in
  let created :=
    Order.mk ("ord-" ++ show_int now) userId items total order_pending None iso in
  let shipped :=
    Order.mk ("ord-" ++ show_int now) userId items total order_shipped
             (Some tracking) iso in
  PartialOrder.userId orderData = Some userId ->
  PartialOrder.items orderData = Some items ->
  PartialOrder.total orderData = Some total ->
  tracking <> "" ->
  exists st1,
    createOrder orderData now iso st = Some (ok created, st1) /\
    getStorage mock_orders [] st1 = created :: orders /\
    ((forall o, In o orders -> Order.id o <> Order.id created) ->
       updateOrderStatus (Order.id created) order_shipped (Some tracking) st1 =
         Some (ok shipped, setStorage mock_orders (shipped :: orders) st1)) /\
    (forall pre older post,
       orders = (pre ++ older :: post)%list ->
       Order.id older = Order.id created ->
       (forall y, In y post -> Order.id y <> Order.id created) ->
       exists st2 rest,
         updateOrderStatus (Order.id created) order_shipped (Some tracking) st1 =
           Some (ok (restamped order_shipped (Some tracking) older), st2) /\
         getStorage mock_orders [] st2 = shipped :: rest).
Proof.
  intros orders created shipped Hu Hi Ht Htrack.
  exists (setStorage mock_orders (created :: orders) st).
  split.
  { unfold createOrder, bind, read, write, ret, non_null.
    rewrite Hu, Hi, Ht. reflexivity. }
  split; [reflexivity|].
  assert (Hship : restamped order_shipped (Some tracking) created = shipped).
  { unfold restamped, created, shipped. simpl.
    apply String.eqb_neq in Htrack. now rewrite Htrack. }
  set (st1 := setStorage mock_orders (created :: orders) st).
  assert (Hslice : getStorage mock_orders [] st1 = created :: orders)
    by reflexivity.
  destruct (map_capturing_orders (Order.id created) order_shipped (Some tracking)
              (created :: orders) None) as [Hfst [_ Hlast]].
  cbv zeta in Hfst, Hlast.
  split.
  - intros Hfresh.
    rewrite updateOrderStatus_run. cbv zeta. rewrite Hslice.
    rewrite (Hlast [] created orders eq_refl eq_refl Hfresh), Hfst.
    simpl map. rewrite String.eqb_refl, Hship.
    rewrite map_unchanged.
    + reflexivity.
    + intros y Hy. apply String.eqb_neq. now apply Hfresh.
  - intros pre older post Hl Hid Hpost.
    eexists. eexists.
    rewrite updateOrderStatus_run. cbv zeta. rewrite Hslice.
    rewrite (Hlast (created :: pre) older post), Hfst; auto.
    + split; [reflexivity|].
      unfold getStorage, setStorage. simpl.
      rewrite String.eqb_refl. fold created. rewrite Hship. reflexivity.
    + simpl. now rewrite Hl.
Qed.

Lemma created_order_then_shipped_witness :
  exists st1 st2,
    createOrder (PartialOrder.mk None (Some "u1") (Some []) (Some zero)
                                 None None None)
                1700000000000 "2023-11-14T22:13:20.000Z" empty_storage =
      Some (ok (Order.mk "ord-1700000000000" "u1" [] zero order_pending None
                         "2023-11-14T22:13:20.000Z"), st1) /\
    updateOrderStatus "ord-1700000000000" order_shipped (Some "TRACK99") st1 =
      Some (ok (Order.mk "ord-1700000000000" "u1" [] zero order_shipped
                         (Some "TRACK99") "2023-11-14T22:13:20.000Z"), st2).
Proof.
  destruct (created_order_then_shipped empty_storage
              (PartialOrder.mk None (Some "u1") (Some []) (Some zero)
                               None None None)
              1700000000000 "2023-11-14T22:13:20.000Z" "u1" "TRACK99" [] zero
              eq_refl eq_refl eq_refl)
    as [st1 [Hc [_ [Hfresh _]]]].
  - discriminate.
  - exists st1. eexists. split; [exact Hc|].
    apply Hfresh. intros o [].
Defined.

(** ** The cart *)

Section CartProperties.

Variable add : number -> number -> number.

Lemma cart_find_none (id : string) (cart : list CartItem.t) :
  find (fun i => String.eqb (Product.id (CartItem.product i)) id) cart = None <->
  ~ In id (cart_ids cart).
Proof.
  rewrite find_none_all. unfold cart_ids. rewrite in_map_iff. split.
  - intros H [i [Hi Hin]]. specialize (H i Hin).
    apply String.eqb_neq in H. contradiction.
  - intros H i Hin. apply String.eqb_neq. intros Heq. apply H. now exists i.
Qed.

Lemma cart_ids_bump (id : string) (qty : number) (cart : list CartItem.t) :
  cart_ids
    (map (fun i => if String.eqb (Product.id (CartItem.product i)) id
                   then CartItem.mk (CartItem.product i)
                                    (add (CartItem.quantity i) qty)
                   else i) cart) = cart_ids cart.
Proof.
  unfold cart_ids. rewrite map_map. apply map_ext. intros i.
  destruct (String.eqb _ _); reflexivity.
Qed.

(** [addToCart] keeps one line per product: when the product ids of the
    cart are pairwise distinct they still are afterwards, the product is in
    the cart, and the cart has one more line exactly when the product was
    not in it. *)
Theorem addToCart_one_line_per_product (p : Product.t) (qty : number)
    (cart : list CartItem.t) :
  NoDup (cart_ids cart) ->
  NoDup (cart_ids (addToCart add p qty cart)) /\
  In (Product.id p) (cart_ids (addToCart add p qty cart)) /\
  (In (Product.id p) (cart_ids cart) ->
     cart_ids (addToCart add p qty cart) = cart_ids cart) /\
  (~ In (Product.id p) (cart_ids cart) ->
     addToCart add p qty cart = (cart ++ [CartItem.mk p qty])%list).
Proof.
  intros Hnd. unfold addToCart.
  destruct (find _ cart) as [existing|] eqn:Hfind.
  - rewrite cart_ids_bump.
    assert (Hin : In (Product.id p) (cart_ids cart)).
    { apply find_some in Hfind. destruct Hfind as [Hin Heq].
      apply String.eqb_eq in Heq. unfold cart_ids. apply in_map_iff.
      now exists existing. }
    repeat split; auto. intros Hout. contradiction.
  - apply cart_find_none in Hfind.
    unfold cart_ids. rewrite map_app. simpl. repeat split.
    + now apply NoDup_snoc.
    + apply in_or_app. right. now left.
    + intros Hin. contradiction.
Qed.

(** Adding a product that is already in the cart changes the quantity of
    its line to the sum and nothing else. *)
Theorem addToCart_sums_quantity (p : Product.t) (qty : number)
    (pre post : list CartItem.t) (line : CartItem.t) :
  NoDup (cart_ids (pre ++ line :: post)) ->
  Product.id (CartItem.product line) = Product.id p ->
  addToCart add p qty (pre ++ line :: post) =
    (pre ++ CartItem.mk (CartItem.product line)
                        (add (CartItem.quantity line) qty) :: post)%list.
Proof.
  intros Hnd Hid.
  assert (Hothers : forall i, In i pre \/ In i post ->
            String.eqb (Product.id (CartItem.product i)) (Product.id p) = false).
  { intros i Hi. apply String.eqb_neq. intros Heq.
    unfold cart_ids in Hnd. rewrite map_app in Hnd. simpl in Hnd.
    apply NoDup_remove_2 in Hnd. apply Hnd. rewrite Hid, <- Heq.
    apply in_or_app. destruct Hi as [Hi|Hi]; [left | right];
      apply in_map_iff; now exists i. }
  unfold addToCart.
  assert (Hfind : find (fun i => String.eqb (Product.id (CartItem.product i))
                                            (Product.id p))
                       (pre ++ line :: post) = Some line).
  { apply find_first_such. exists pre, post. split; [reflexivity|].
    split; [now apply String.eqb_eq|].
    intros y Hy. rewrite (Hothers y (or_introl Hy)). discriminate. }
  rewrite Hfind, map_app. simpl.
  rewrite (proj2 (String.eqb_eq _ _) Hid).
  rewrite !map_unchanged; auto.
Qed.

(** [removeFromCart] leaves no line of that product and keeps every other
    line; removing a product just added to a cart that did not have it
    gives back the cart. *)
Theorem removeFromCart_undoes_add (id : string) (cart : list CartItem.t) :
  ~ In id (cart_ids (removeFromCart id cart)) /\
  (forall i, Product.id (CartItem.product i) <> id ->
             (In i (removeFromCart id cart) <-> In i cart)) /\
  (forall p qty, ~ In (Product.id p) (cart_ids cart) ->
                 removeFromCart (Product.id p) (addToCart add p qty cart) = cart).
Proof.
  unfold removeFromCart. split; [|split].
  - unfold cart_ids. rewrite in_map_iff. intros [i [Hi Hin]].
    apply filter_In in Hin. destruct Hin as [_ Hne].
    apply negb_true_iff, String.eqb_neq in Hne. contradiction.
  - intros i Hi. rewrite filter_In.
    apply String.eqb_neq in Hi. rewrite Hi. simpl. tauto.
  - intros p qty Hout. unfold addToCart.
    rewrite (proj2 (cart_find_none (Product.id p) cart) Hout).
    rewrite filter_app. simpl. rewrite String.eqb_refl. simpl.
    rewrite app_nil_r. apply filter_all.
    intros i Hin. apply negb_true_iff, String.eqb_neq. intros Heq.
    apply Hout. unfold cart_ids. apply in_map_iff. now exists i.
Qed.

End CartProperties.

Lemma addToCart_one_line_per_product_witness :
  let toy := hd (Product.mk "" "" "" None None "" "" zero zero "") MOCK_PRODUCTS in
  let one := QArith_base.Qmake 1 1 in
  addToCart QArith_base.Qplus toy one [] = [CartItem.mk toy one] /\
  NoDup (cart_ids (addToCart QArith_base.Qplus toy one [CartItem.mk toy one])).
Proof.
  intros toy one. split.
  - apply (addToCart_one_line_per_product QArith_base.Qplus toy one []).
    + constructor.
    + intros [].
  - apply (addToCart_one_line_per_product QArith_base.Qplus toy one
             [CartItem.mk toy one]).
    constructor; [intros [] | constructor].
Defined.

Lemma addToCart_sums_quantity_witness :
  let toy := hd (Product.mk "" "" "" None None "" "" zero zero "") MOCK_PRODUCTS in
  addToCart QArith_base.Qplus toy (QArith_base.Qmake 2 1)
            [CartItem.mk toy (QArith_base.Qmake 1 1)] =
    [CartItem.mk toy (QArith_base.Qplus (QArith_base.Qmake 1 1)
                                        (QArith_base.Qmake 2 1))].
Proof.
  intros toy.
  apply (addToCart_sums_quantity QArith_base.Qplus toy (QArith_base.Qmake 2 1)
           [] [] (CartItem.mk toy (QArith_base.Qmake 1 1))).
  - constructor; [intros [] | constructor].
  - reflexivity.
Defined.

(** ** Login does not look at the account status *)

Lemma find_map_same_test {A} (p : A -> bool) (f : A -> A) (l : list A) :
  (forall x, p (f x) = p x) ->
  find p (map f l) = option_map f (find p l).
Proof.
  intros Hpf. induction l as [|a l IH]; simpl; [reflexivity|].
  rewrite Hpf. destruct (p a); [reflexivity | exact IH].
Qed.

(** After [updateUserStatus] on the id of the user that [login] finds for an
    email, whatever the status set (rejected included), [login] under that
    email still succeeds and answers with that user, now with the new
    status. *)
Theorem login_ignores_status (toLowerCase : string -> string) (st : Storage)
    (email password : string) (u : User.t) (status : UserStatus) :
  first_such (fun v => toLowerCase (User.email v) = toLowerCase email)
             (getStorage mock_users INITIAL_USERS st) u ->
  exists st1,
    updateUserStatus (User.id u) status st = Some (ok true, st1) /\
    login toLowerCase email password st1 =
      Some (ok (User.mk (User.id u) (User.username u) (User.email u)
                        (User.role u) (Some ("mock-jwt-" ++ User.id u))
                        status (User.qualificationUrl u)), st1).
Proof.
  intros [pre [post [Hl [Hu Hpre]]]].
  set (f := fun v => if String.eqb (User.id v) (User.id u)
                     then with_user_status v status else v).
  exists (setStorage mock_users
            (map f (getStorage mock_users INITIAL_USERS st)) st).
  split; [reflexivity|].
  rewrite (login_found toLowerCase _ email password (f u)).
  - unfold f. rewrite String.eqb_refl. reflexivity.
  - change (getStorage mock_users INITIAL_USERS
              (setStorage mock_users
                 (map f (getStorage mock_users INITIAL_USERS st)) st))
      with (map f (getStorage mock_users INITIAL_USERS st)).
    rewrite find_map_same_test.
    + assert (Hfind : find (fun v => String.eqb (toLowerCase (User.email v))
                                                (toLowerCase email))
                           (getStorage mock_users INITIAL_USERS st) = Some u).
      { apply find_first_such. exists pre, post. split; [exact Hl|].
        split; [now apply String.eqb_eq|].
        intros y Hy Heq. apply (Hpre y Hy). now apply String.eqb_eq. }
      now rewrite Hfind.
    + intros x. unfold f.
      destruct (String.eqb (User.id x) (User.id u)); reflexivity.
Qed.

Lemma login_ignores_status_witness :
  exists st1 r,
    updateUserStatus "m1" user_rejected empty_storage = Some (ok true, st1) /\
    login toLowerCase_ascii "merchant@test.com" "pw" st1 = Some (r, st1) /\
    success r = true /\ option_map User.status (data r) = Some user_rejected.
Proof.
  destruct (login_ignores_status toLowerCase_ascii empty_storage
              "merchant@test.com" "pw"
              (User.mk "m1" "Merchant User" "merchant@test.com" MERCHANT None
                       user_active (Some "https://picsum.photos/200/300"))
              user_rejected)
    as [st1 [Hu Hl]].
  - exists [User.mk "admin1" "Admin User" "admin@test.com" ADMIN None user_active None],
           [User.mk "u1" "Traveler User" "user@test.com" TRAVELER None user_active None].
    split; [reflexivity|]. split; [reflexivity|].
    intros y [<-|[]]. vm_compute. discriminate.
  - exists st1. eexists. split; [exact Hu|]. split; [exact Hl|].
    split; reflexivity.
Defined.
